(** * corinfo.h: CPU identification decoding and the snapshot collector

    A shallow embedding of [corinfo.h].  C integers are mathematical
    integers with the conversions written out; the caller's
    [struct corinfo] is a record whose two byte arrays are lists; the
    functions run in a small state-and-failure monad whose state holds the
    pointed-to struct, the local [int cpu[4]] array and a log of everything
    the program does to the outside (library calls, [cpuid] executions and
    stores through [info]).  A computation without a result ([None]) is an
    execution the C standard leaves undefined.  The one floating-point
    expression of the file is evaluated in IEEE 754 binary32, rounding to
    nearest even, with the operations of [Floats.SpecFloat]. *)

From Stdlib Require Import Reals Lra.
From Stdlib Require Floats.SpecFloat.
From Stdlib Require Import ZArith String Ascii List Lia Bool.
Import ListNotations.
Open Scope Z_scope.

(** ** C integer conversions and the bit expressions of the decoders *)

Module CInt.

(** Conversion to [uint8_t], [uint32_t], [size_t] (64 bits) and [int]. *)
Definition to_u8 (v : Z) : Z := v mod 2 ^ 8.
Definition to_u32 (v : Z) : Z := v mod 2 ^ 32.
Definition to_size_t (v : Z) : Z := v mod 2 ^ 64.
Definition to_int (v : Z) : Z := (v + 2 ^ 31) mod 2 ^ 32 - 2 ^ 31.

Definition INT_MIN : Z := - 2 ^ 31.
Definition INT_MAX : Z := 2 ^ 31 - 1.

(** [(w >> (i * 8)) & 0xFF] *)
Definition lane (w i : Z) : Z := Z.land (Z.shiftr w (i * 8)) 0xFF.

(** [(w >> k) & 0x1] *)
Definition bit (w k : Z) : Z := Z.land (Z.shiftr w k) 0x1.

(** The four bytes of a 32-bit word, lowest first. *)
Definition le_bytes (w : Z) : list Z :=
  [w mod 256; (w / 2 ^ 8) mod 256; (w / 2 ^ 16) mod 256; (w / 2 ^ 24) mod 256].

Definition b2z (b : bool) : Z := if b then 1 else 0.

End CInt.
Import CInt.

(** ** Data *)

(** [int cpu[4]]: the four registers EAX, EBX, ECX, EDX of one [cpuid]. *)
Record cpu_regs : Type := Regs { cpu0 : Z; cpu1 : Z; cpu2 : Z; cpu3 : Z }.

(** [struct corinfo]. *)
Record corinfo : Type := Corinfo {
  CpuCount : Z;
  CpuFrequency : Z;
  VendorString : list Z;
  BrandString : list Z;
  MMX : Z;
  SSE : Z;
  SSE2 : Z;
  SSE3 : Z;
  SSE41 : Z;
  SSE42 : Z;
  AVX : Z;
  RamSize : Z;
  RamFree : Z;
  RamUsage : Z
}.

(** The arrays are [uint8_t VendorString[12]] and [uint8_t BrandString[48]]. *)
Definition wf_corinfo (s : corinfo) : Prop :=
  length (VendorString s) = 12%nat /\ length (BrandString s) = 48%nat.

Definition zero_corinfo : corinfo :=
  Corinfo 0 0 (repeat 0 12) (repeat 0 48) 0 0 0 0 0 0 0 0 0 0.

(** The objects a store through [info] can name. *)
Inductive lvalue : Type :=
| L_CpuCount
| L_CpuFrequency
| L_VendorString (i : Z)
| L_BrandString (i : Z)
| L_MMX
| L_SSE
| L_SSE2
| L_SSE3
| L_SSE41
| L_SSE42
| L_AVX
| L_RamSize
| L_RamFree
| L_RamUsage.

(** What the program does to the world, in program order. *)
Inductive event : Type :=
| EvCall (name : string)
| EvCpuid (eax : Z)
| EvStore (l : lvalue) (v : Z).

(** [a[i] = v] on an array held as a list; no result outside the array. *)
Fixpoint list_set (n : nat) (v : Z) (l : list Z) : option (list Z) :=
  match l, n with
  | [], _ => None
  | _ :: t, O => Some (v :: t)
  | h :: t, S k => option_map (cons h) (list_set k v t)
  end.

Definition array_set (i v : Z) (l : list Z) : option (list Z) :=
  if i <? 0 then None else list_set (Z.to_nat i) v l.

Definition write_lvalue (l : lvalue) (v : Z) (s : corinfo) : option corinfo :=
  let '(Corinfo cc cf vs bs mmx sse sse2 sse3 sse41 sse42 avx rs rf ru) := s in
  match l with
  | L_CpuCount => Some (Corinfo v cf vs bs mmx sse sse2 sse3 sse41 sse42 avx rs rf ru)
  | L_CpuFrequency => Some (Corinfo cc v vs bs mmx sse sse2 sse3 sse41 sse42 avx rs rf ru)
  | L_VendorString i =>
      option_map
        (fun vs' => Corinfo cc cf vs' bs mmx sse sse2 sse3 sse41 sse42 avx rs rf ru)
        (array_set i v vs)
  | L_BrandString i =>
      option_map
        (fun bs' => Corinfo cc cf vs bs' mmx sse sse2 sse3 sse41 sse42 avx rs rf ru)
        (array_set i v bs)
  | L_MMX => Some (Corinfo cc cf vs bs v sse sse2 sse3 sse41 sse42 avx rs rf ru)
  | L_SSE => Some (Corinfo cc cf vs bs mmx v sse2 sse3 sse41 sse42 avx rs rf ru)
  | L_SSE2 => Some (Corinfo cc cf vs bs mmx sse v sse3 sse41 sse42 avx rs rf ru)
  | L_SSE3 => Some (Corinfo cc cf vs bs mmx sse sse2 v sse41 sse42 avx rs rf ru)
  | L_SSE41 => Some (Corinfo cc cf vs bs mmx sse sse2 sse3 v sse42 avx rs rf ru)
  | L_SSE42 => Some (Corinfo cc cf vs bs mmx sse sse2 sse3 sse41 v avx rs rf ru)
  | L_AVX => Some (Corinfo cc cf vs bs mmx sse sse2 sse3 sse41 sse42 v rs rf ru)
  | L_RamSize => Some (Corinfo cc cf vs bs mmx sse sse2 sse3 sse41 sse42 avx v rf ru)
  | L_RamFree => Some (Corinfo cc cf vs bs mmx sse sse2 sse3 sse41 sse42 avx rs v ru)
  | L_RamUsage => Some (Corinfo cc cf vs bs mmx sse sse2 sse3 sse41 sse42 avx rs rf v)
  end.

(** ** The monad *)

Record machine : Type := Machine {
  mem : corinfo;        (* the object [info] points to *)
  cpu : cpu_regs;       (* the caller's [int cpu[4]] *)
  trace : list event
}.

Definition C (A : Type) : Type := machine -> option (A * machine).

Definition ret {A} (a : A) : C A := fun m => Some (a, m).

Definition bind {A B} (c : C A) (k : A -> C B) : C B :=
  fun m => match c m with
           | Some (a, m') => k a m'
           | None => None
           end.

Definition undefined {A} : C A := fun _ => None.

Notation "x <- c ;; k" := (bind c (fun x => k))
  (at level 61, c at next level, right associativity).
Notation "c ;; k" := (bind c (fun _ => k))
  (at level 61, right associativity).

Definition emit (e : event) : C unit :=
  fun m => Some (tt, Machine (mem m) (cpu m) (trace m ++ [e])).

Definition call (name : string) : C unit := emit (EvCall name).

Definition get_cpu : C cpu_regs := fun m => Some (cpu m, m).

Definition get_info : C corinfo := fun m => Some (mem m, m).

(** [*l = v] through [info]. *)
Definition assign (l : lvalue) (v : Z) : C unit :=
  fun m => match write_lvalue l v (mem m) with
           | Some s => Some (tt, Machine s (cpu m) (trace m ++ [EvStore l v]))
           | None => None
           end.

(** [for (int i = lo; i < lo + n; i++) body] *)
Fixpoint for_range (lo : Z) (n : nat) (body : Z -> C unit) : C unit :=
  match n with
  | O => ret tt
  | S k => body lo ;; for_range (lo + 1) k body
  end.

(** ** The decoders *)

Section Decoders.

(** The processor: the four registers [cpuid] leaves for a value of EAX
    (ECX is 0 at every use). *)
Variable cpuid_hw : Z -> cpu_regs.

(** The [__cpuid(cpu, command)] macro; [command] is an [int]. *)
Definition __cpuid (command : Z) : C unit :=
  fun m => Some (tt, Machine (mem m) (cpuid_hw (to_u32 command))
                             (trace m ++ [EvCpuid (to_u32 command)])).

Definition __null_corinfo : C unit :=
  assign L_CpuCount 0 ;;
  assign L_CpuFrequency 0 ;;
  for_range 0 12 (fun i => assign (L_VendorString i) 0) ;;
  for_range 0 48 (fun i => assign (L_BrandString i) 0) ;;
  assign L_MMX 0 ;;
  assign L_SSE 0 ;;
  assign L_SSE2 0 ;;
  assign L_SSE3 0 ;;
  assign L_SSE41 0 ;;
  assign L_SSE42 0 ;;
  assign L_AVX 0 ;;
  assign L_RamSize 0 ;;
  assign L_RamFree 0 ;;
  assign L_RamUsage 0.

(** [string] is the base of the destination array. *)
Definition __vendor_string (string : Z -> lvalue) : C unit :=
  for_range 0 4 (fun i =>
    c <- get_cpu ;;
    assign (string (i + 0)) (to_u8 (lane (cpu1 c) i)) ;;
    assign (string (i + 4)) (to_u8 (lane (cpu3 c) i)) ;;
    assign (string (i + 8)) (to_u8 (lane (cpu2 c) i))).

Definition commands : list Z :=
  [to_int 0x80000002; to_int 0x80000003; to_int 0x80000004].

Fixpoint brand_loop (cmds : list Z) (offset : Z) (string : Z -> lvalue) : C unit :=
  match cmds with
  | [] => ret tt
  | command :: rest =>
      __cpuid command ;;
      for_range 0 4 (fun j =>
        c <- get_cpu ;;
        assign (string (offset + j + 0)) (to_u8 (lane (cpu0 c) j)) ;;
        assign (string (offset + j + 4)) (to_u8 (lane (cpu1 c) j)) ;;
        assign (string (offset + j + 8)) (to_u8 (lane (cpu2 c) j)) ;;
        assign (string (offset + j + 12)) (to_u8 (lane (cpu3 c) j))) ;;
      brand_loop rest (offset + 16) string
  end.

Definition __brand_string (string : Z -> lvalue) : C unit :=
  brand_loop commands 0 string.

Definition __extensions : C unit :=
  __cpuid 0x00000001 ;;
  c <- get_cpu ;;
  assign L_MMX (to_u8 (bit (cpu3 c) 23)) ;;
  assign L_SSE (to_u8 (bit (cpu3 c) 25)) ;;
  assign L_SSE2 (to_u8 (bit (cpu3 c) 26)) ;;
  assign L_SSE3 (to_u8 (bit (cpu2 c) 0)) ;;
  assign L_SSE41 (to_u8 (bit (cpu2 c) 19)) ;;
  assign L_SSE42 (to_u8 (bit (cpu2 c) 20)) ;;
  assign L_AVX (to_u8 (bit (cpu2 c) 28)).

End Decoders.

(** ** What the decoders compute, stated apart from the loops *)

(** The four bytes the lane expression extracts from one register. *)
Definition reg_bytes (w : Z) : list Z :=
  [to_u8 (lane w 0); to_u8 (lane w 1); to_u8 (lane w 2); to_u8 (lane w 3)].

(** Sixteen bytes of one [cpuid] result, registers in index order. *)
Definition block_bytes (c : cpu_regs) : list Z :=
  reg_bytes (cpu0 c) ++ reg_bytes (cpu1 c) ++ reg_bytes (cpu2 c) ++ reg_bytes (cpu3 c).

Definition le_block (c : cpu_regs) : list Z :=
  le_bytes (cpu0 c) ++ le_bytes (cpu1 c) ++ le_bytes (cpu2 c) ++ le_bytes (cpu3 c).

Definition with_VendorString (vs : list Z) (s : corinfo) : corinfo :=
  Corinfo (CpuCount s) (CpuFrequency s) vs (BrandString s) (MMX s) (SSE s) (SSE2 s)
          (SSE3 s) (SSE41 s) (SSE42 s) (AVX s) (RamSize s) (RamFree s) (RamUsage s).

Definition with_BrandString (bs : list Z) (s : corinfo) : corinfo :=
  Corinfo (CpuCount s) (CpuFrequency s) (VendorString s) bs (MMX s) (SSE s) (SSE2 s)
          (SSE3 s) (SSE41 s) (SSE42 s) (AVX s) (RamSize s) (RamFree s) (RamUsage s).

(** The seven flags of a snapshot, in declaration order. *)
Definition flags (s : corinfo) : list Z :=
  [MMX s; SSE s; SSE2 s; SSE3 s; SSE41 s; SSE42 s; AVX s].

Definition with_flags (c : cpu_regs) (s : corinfo) : corinfo :=
  Corinfo (CpuCount s) (CpuFrequency s) (VendorString s) (BrandString s)
          (to_u8 (bit (cpu3 c) 23)) (to_u8 (bit (cpu3 c) 25)) (to_u8 (bit (cpu3 c) 26))
          (to_u8 (bit (cpu2 c) 0)) (to_u8 (bit (cpu2 c) 19)) (to_u8 (bit (cpu2 c) 20))
          (to_u8 (bit (cpu2 c) 28)) (RamSize s) (RamFree s) (RamUsage s).

(** The stores of one pass of a decoder loop, as (index, value) pairs. *)
Definition vendor_writes (c : cpu_regs) : list (Z * Z) :=
  flat_map (fun i => [(i + 0, to_u8 (lane (cpu1 c) i));
                      (i + 4, to_u8 (lane (cpu3 c) i));
                      (i + 8, to_u8 (lane (cpu2 c) i))]) [0; 1; 2; 3].

Definition block_writes (offset : Z) (c : cpu_regs) : list (Z * Z) :=
  flat_map (fun j => [(offset + j + 0, to_u8 (lane (cpu0 c) j));
                      (offset + j + 4, to_u8 (lane (cpu1 c) j));
                      (offset + j + 8, to_u8 (lane (cpu2 c) j));
                      (offset + j + 12, to_u8 (lane (cpu3 c) j))]) [0; 1; 2; 3].

Definition stores (base : Z -> lvalue) (ws : list (Z * Z)) : list event :=
  map (fun w => EvStore (base (fst w)) (snd w)) ws.

Definition brand_events (hw : Z -> cpu_regs) : list event :=
  EvCpuid 0x80000002 :: stores L_BrandString (block_writes 0 (hw 0x80000002)) ++
  EvCpuid 0x80000003 :: stores L_BrandString (block_writes 16 (hw 0x80000003)) ++
  EvCpuid 0x80000004 :: stores L_BrandString (block_writes 32 (hw 0x80000004)).

Definition extension_events (c : cpu_regs) : list event :=
  [EvCpuid 1;
   EvStore L_MMX (to_u8 (bit (cpu3 c) 23)); EvStore L_SSE (to_u8 (bit (cpu3 c) 25));
   EvStore L_SSE2 (to_u8 (bit (cpu3 c) 26)); EvStore L_SSE3 (to_u8 (bit (cpu2 c) 0));
   EvStore L_SSE41 (to_u8 (bit (cpu2 c) 19)); EvStore L_SSE42 (to_u8 (bit (cpu2 c) 20));
   EvStore L_AVX (to_u8 (bit (cpu2 c) 28))].

Definition is_cpuid (e : event) : bool :=
  match e with EvCpuid _ => true | _ => false end.

Definition is_store (e : event) : bool :=
  match e with EvStore _ _ => true | _ => false end.

(** The stores of [__null_corinfo], in program order. *)
Definition null_events : list event :=
  [EvStore L_CpuCount 0; EvStore L_CpuFrequency 0] ++
  map (fun i => EvStore (L_VendorString (Z.of_nat i)) 0) (seq 0 12) ++
  map (fun i => EvStore (L_BrandString (Z.of_nat i)) 0) (seq 0 48) ++
  [EvStore L_MMX 0; EvStore L_SSE 0; EvStore L_SSE2 0; EvStore L_SSE3 0;
   EvStore L_SSE41 0; EvStore L_SSE42 0; EvStore L_AVX 0;
   EvStore L_RamSize 0; EvStore L_RamFree 0; EvStore L_RamUsage 0].

(** The snapshot after the identification phase: [__cpuid(cpu, 0)] and the
    three decoders run on [s]. *)
Definition identified (hw : Z -> cpu_regs) (s : corinfo) : corinfo :=
  with_flags (hw 1)
    (with_BrandString
       (block_bytes (hw 0x80000002) ++ block_bytes (hw 0x80000003) ++
        block_bytes (hw 0x80000004))
       (with_VendorString
          (reg_bytes (cpu1 (hw 0)) ++ reg_bytes (cpu3 (hw 0)) ++ reg_bytes (cpu2 (hw 0)))
          s)).

Definition identification_events (hw : Z -> cpu_regs) : list event :=
  EvCpuid 0 :: stores L_VendorString (vendor_writes (hw 0)) ++
  brand_events hw ++ extension_events (hw 1).

(** ** The collector *)

(** What a caller of [corinfo_GetInfo] observes: the returned [int], the
    object behind [info] ([None] for a null pointer) and the log. *)
Record outcome : Type := Outcome {
  status : Z;
  snapshot : option corinfo;
  events : list event
}.

Definition lift {A} (o : option A) : C A :=
  match o with
  | Some a => ret a
  | None => undefined
  end.

(** [corinfo_GetInfo] up to its null check at the top; [body] is the rest
    of the function and [stack_cpu] what the local array holds on entry. *)
Definition with_null_check (body : C Z) (stack_cpu : cpu_regs)
    (info : option corinfo) : option outcome :=
  match info with
  | None => Some (Outcome (-1) None [])
  | Some s =>
      match body (Machine s stack_cpu []) with
      | Some (r, m) => Some (Outcome r (Some (mem m)) (trace m))
      | None => None
      end
  end.

(** *** C strings and [atoi] *)

Module CString.

Definition code (a : ascii) : Z := Z.of_N (N_of_ascii a).

Definition isspace (a : ascii) : bool :=
  (code a =? 32) || ((9 <=? code a) && (code a <=? 13)).

Definition isdigit (a : ascii) : bool := (48 <=? code a) && (code a <=? 57).

(** [strchr(s, c)] for a non-null [c]: the offset of the first [c] before
    the terminator, [None] for a null result. *)
Fixpoint strchr (s : string) (c : ascii) : option nat :=
  match s with
  | EmptyString => None
  | String a r =>
      if Ascii.eqb a c then Some O
      else if Ascii.eqb a zero then None
      else option_map S (strchr r c)
  end.

(** [s + n] as a string to read: defined while the pointer stays on the
    bytes of [s] or on its terminator.  One byte further the pointer is
    still inside the buffer [getline] allocated, on bytes the line does not
    determine: the model gives no string there, and nothing is concluded
    from that case. *)
Fixpoint advance (n : nat) (s : string) : option string :=
  match n, s with
  | O, _ => Some s
  | S k, String _ r => advance k r
  | S _, EmptyString => None
  end.

Fixpoint skip_space (s : string) : string :=
  match s with
  | String a r => if isspace a then skip_space r else s
  | EmptyString => s
  end.

Fixpoint digits (acc : Z) (s : string) : Z :=
  match s with
  | String a r => if isdigit a then digits (acc * 10 + (code a - 48)) r else acc
  | EmptyString => acc
  end.

(** [atoi]: white space, an optional sign, decimal digits; no result when
    the value is not an [int]. *)
Definition atoi (s : string) : option Z :=
  let v := match skip_space s with
           | String "-" r => - digits 0 r
           | String "+" r => digits 0 r
           | t => digits 0 t
           end in
  if (INT_MIN <=? v) && (v <=? INT_MAX) then Some v else None.

(** The successive results of [getline] on a stream: each line keeps its
    newline, the last one may lack it. *)
Fixpoint lines_of (s : string) : list string :=
  match s with
  | EmptyString => []
  | String a r =>
      if Ascii.eqb a "010" then String a EmptyString :: lines_of r
      else match lines_of r with
           | [] => [String a EmptyString]
           | l :: ls => String a l :: ls
           end
  end.

End CString.
Import CString.

(** *** Single precision *)

(** [float] is IEEE 754 binary32: 24 bits of precision, exponents up to
    128, every operation rounded to nearest even and evaluated in the
    precision of its type. *)
Module F32.

Definition prec : Z := 24.

Definition emax : Z := 128.

(** The conversion of an integer to [float]; it rounds from 2^24 on. *)
Definition of_Z (n : Z) : SpecFloat.spec_float :=
  SpecFloat.binary_normalize prec emax n 0 false.

(** The conversion of a [float] to [uint32_t]: the fractional part is
    discarded, and there is no result when the integral part is not a
    value of the type (a negative integer, one from 2^32 on, an infinity
    or a NaN). *)
Definition to_u32 (x : SpecFloat.spec_float) : option Z :=
  match x with
  | SpecFloat.S754_zero _ => Some 0
  | SpecFloat.S754_finite s m e =>
      let t := if 0 <=? e then Z.shiftl (Zpos m) e else Z.shiftr (Zpos m) (- e) in
      if s then (if t =? 0 then Some 0 else None)
      else if t <? 2 ^ 32 then Some t else None
  | _ => None
  end.

End F32.

(** *** The Unix-like variant *)

Module Linux.

(** The fields of [struct sysinfo] the collector reads. *)
Record sysinfo_t : Type := { totalram : Z; freeram : Z }.

(** What the host answers. *)
Record host : Type := {
  sysinfo : option sysinfo_t;        (* [None]: [sysinfo] returns -1 *)
  proc_cpuinfo : option string;      (* [None]: [fopen] returns NULL *)
  nprocessors_onln : Z;              (* [sysconf(_SC_NPROCESSORS_ONLN)] *)
  stack_cpu : cpu_regs;              (* [cpu] before its first write *)
  stack_MHz : Z                      (* [MHz] before its first write *)
}.

(** [memcmp(line, "cpu MHz", 7) == 0]: a line shorter than the marker
    differs from it at its terminator at the latest. *)
Definition has_marker (line : string) : bool := prefix "cpu MHz" line.

(** [MHz = atoi(strchr(line, ':') + 2)], [MHz] a [size_t]. *)
Definition parse_MHz (line : string) : option Z :=
  match strchr line ":" with
  | None => None
  | Some k =>
      match advance (k + 2) line with
      | None => None
      | Some s => option_map to_size_t (atoi s)
      end
  end.

(** The [while ((line_read = getline(...)) != -1)] loop over the lines
    still to be read; the result is [MHz] after the loop.  The buffer
    [getline] allocates and its [free] stay outside the log. *)
Fixpoint scan (lines : list string) (MHz : Z) : C Z :=
  call "getline" ;;
  match lines with
  | [] => ret MHz
  | line :: rest =>
      if has_marker line then lift (parse_MHz line) else scan rest MHz
  end.

(** [info->RamUsage = 100 - (info->RamFree / (float)info->RamSize) * 100]:
    the two [uint32_t] fields and the two [int] constants are converted to
    [float], the quotient, the product and the difference are computed in
    [float], and the difference is converted to [uint32_t]. *)
Definition ram_usage (RamFree RamSize : Z) : option Z :=
  F32.to_u32
    (SpecFloat.SFsub F32.prec F32.emax (F32.of_Z 100)
       (SpecFloat.SFmul F32.prec F32.emax
          (SpecFloat.SFdiv F32.prec F32.emax (F32.of_Z RamFree) (F32.of_Z RamSize))
          (F32.of_Z 100))).

Section GetInfo.

Variable cpuid_hw : Z -> cpu_regs.

(** The value of [100 - (RamFree / (float)RamSize) * 100] converted to
    [uint32_t], as a function of [RamFree] and [RamSize]; [None] where
    the conversion is undefined.  What does not depend on the arithmetic is
    stated for any such function; the program has [ram_usage]. *)
Variable f32_usage : Z -> Z -> option Z.

Definition GetInfo_body (h : host) : C Z :=
  __null_corinfo ;;
  call "sysinfo" ;;
  match sysinfo h with
  | None => ret (-1)
  | Some sys =>
      __cpuid cpuid_hw 0x00000000 ;;
      __vendor_string L_VendorString ;;
      __brand_string cpuid_hw L_BrandString ;;
      __extensions cpuid_hw ;;
      call "fopen" ;;
      match proc_cpuinfo h with
      | None => ret (-1)
      | Some content =>
          MHz <- scan (lines_of content) (stack_MHz h) ;;
          call "fclose" ;;
          call "sysconf" ;;
          assign L_CpuCount (to_u32 (nprocessors_onln h)) ;;
          assign L_CpuFrequency (to_u32 MHz) ;;
          assign L_RamSize (to_u32 (totalram sys / 1024)) ;;
          assign L_RamFree (to_u32 (freeram sys / 1024)) ;;
          s <- get_info ;;
          usage <- lift (f32_usage (RamFree s) (RamSize s)) ;;
          assign L_RamUsage usage ;;
          ret 0
      end
  end.

Definition corinfo_GetInfo (h : host) (info : option corinfo) : option outcome :=
  with_null_check (GetInfo_body h) (stack_cpu h) info.

(** The loop without the machine: the value of [MHz] after it, and the
    number of [getline] calls it makes. *)
Fixpoint scan_result (lines : list string) (MHz : Z) : option Z :=
  match lines with
  | [] => Some MHz
  | line :: rest => if has_marker line then parse_MHz line else scan_result rest MHz
  end.

Fixpoint scan_reads (lines : list string) : nat :=
  match lines with
  | [] => 1
  | line :: rest => if has_marker line then 1 else S (scan_reads rest)
  end.

(** The outcome of [corinfo_GetInfo] on a non-null [info], by cases on what
    the host answers. *)
Definition summary (h : host) : option outcome :=
  match sysinfo h with
  | None =>
      Some (Outcome (-1) (Some zero_corinfo) (null_events ++ [EvCall "sysinfo"]))
  | Some sys =>
      let id := identified cpuid_hw zero_corinfo in
      let pre := null_events ++ EvCall "sysinfo" :: identification_events cpuid_hw ++
                 [EvCall "fopen"] in
      match proc_cpuinfo h with
      | None => Some (Outcome (-1) (Some id) pre)
      | Some content =>
          match scan_result (lines_of content) (stack_MHz h) with
          | None => None
          | Some MHz =>
              let rs := to_u32 (totalram sys / 1024) in
              let rf := to_u32 (freeram sys / 1024) in
              match f32_usage rf rs with
              | None => None
              | Some usage =>
                  Some (Outcome 0
                    (Some (Corinfo (to_u32 (nprocessors_onln h)) (to_u32 MHz)
                             (VendorString id) (BrandString id)
                             (MMX id) (SSE id) (SSE2 id) (SSE3 id)
                             (SSE41 id) (SSE42 id) (AVX id) rs rf usage))
                    (pre ++ repeat (EvCall "getline") (scan_reads (lines_of content)) ++
                     [EvCall "fclose"; EvCall "sysconf";
                      EvStore L_CpuCount (to_u32 (nprocessors_onln h));
                      EvStore L_CpuFrequency (to_u32 MHz);
                      EvStore L_RamSize rs; EvStore L_RamFree rf;
                      EvStore L_RamUsage usage]))
              end
          end
      end
  end.

End GetInfo.

End Linux.

(** *** The registry-based variant *)

Module Win32.

(** [ERROR_SUCCESS] and [_MAX_PATH] as the platform headers define them. *)
Definition ERROR_SUCCESS : Z := 0.
Definition _MAX_PATH : Z := 260.

Record host : Type := {
  dwNumberOfProcessors : Z;          (* from [GetSystemInfo] *)
  ullTotalPhys : Z;                  (* from [GlobalMemoryStatusEx] *)
  ullAvailPhys : Z;
  dwMemoryLoad : Z;
  lError : Z;                        (* result of [RegOpenKeyEx] *)
  reg_MHz : option Z;                (* what [RegQueryValueEx] puts in
                                        [dwMHz]; [None]: left as it was *)
  stack_cpu : cpu_regs               (* [cpu] before its first write *)
}.

Section GetInfo.

Variable cpuid_hw : Z -> cpu_regs.

Definition GetInfo_body (h : host) : C Z :=
  __null_corinfo ;;
  call "GetSystemInfo" ;;
  call "GlobalMemoryStatusEx" ;;
  __cpuid cpuid_hw 0x00000000 ;;
  __vendor_string L_VendorString ;;
  __brand_string cpuid_hw L_BrandString ;;
  __extensions cpuid_hw ;;
  call "RegOpenKeyEx" ;;
  if negb (lError h =? ERROR_SUCCESS) then
    call "FormatMessage" ;;
    call "wprintf" ;;
    ret 0
  else
    call "RegQueryValueEx" ;;
    let dwMHz := match reg_MHz h with Some v => v | None => _MAX_PATH end in
    assign L_CpuCount (to_u32 (dwNumberOfProcessors h)) ;;
    assign L_CpuFrequency (to_u32 dwMHz) ;;
    assign L_RamSize (to_u32 (ullTotalPhys h / 1024)) ;;
    assign L_RamFree (to_u32 (ullAvailPhys h / 1024)) ;;
    assign L_RamUsage (to_u32 (dwMemoryLoad h)) ;;
    ret 0.

Definition corinfo_GetInfo (h : host) (info : option corinfo) : option outcome :=
  with_null_check (GetInfo_body h) (stack_cpu h) info.

(** The outcome of [corinfo_GetInfo] on a non-null [info], by cases on what
    the host answers. *)
Definition summary (h : host) : outcome :=
  let id := identified cpuid_hw zero_corinfo in
  let pre := null_events ++
             EvCall "GetSystemInfo" :: EvCall "GlobalMemoryStatusEx" ::
             identification_events cpuid_hw ++ [EvCall "RegOpenKeyEx"] in
  if negb (lError h =? ERROR_SUCCESS) then
    Outcome 0 (Some id) (pre ++ [EvCall "FormatMessage"; EvCall "wprintf"])
  else
    let dwMHz := match reg_MHz h with Some v => v | None => _MAX_PATH end in
    let rs := to_u32 (ullTotalPhys h / 1024) in
    let rf := to_u32 (ullAvailPhys h / 1024) in
    Outcome 0
      (Some (Corinfo (to_u32 (dwNumberOfProcessors h)) (to_u32 dwMHz)
               (VendorString id) (BrandString id)
               (MMX id) (SSE id) (SSE2 id) (SSE3 id) (SSE41 id) (SSE42 id) (AVX id)
               rs rf (to_u32 (dwMemoryLoad h))))
      (pre ++ [EvCall "RegQueryValueEx";
               EvStore L_CpuCount (to_u32 (dwNumberOfProcessors h));
               EvStore L_CpuFrequency (to_u32 dwMHz);
               EvStore L_RamSize rs; EvStore L_RamFree rf;
               EvStore L_RamUsage (to_u32 (dwMemoryLoad h))]).

End GetInfo.

End Win32.

(** ** Vocabulary of the statements *)

Definition bytes_of_string (s : string) : list Z :=
  map code (list_ascii_of_string s).

(** The word whose bytes, lowest first, are [bs]. *)
Fixpoint le_word (bs : list Z) : Z :=
  match bs with
  | [] => 0
  | b :: r => b + 256 * le_word r
  end.

(** The registers of leaf 0 on a processor whose vendor tag is [tag]
    (twelve characters): EBX, EDX, ECX carry characters 0-3, 4-7, 8-11. *)
Definition vendor_regs (max_leaf : Z) (tag : string) : cpu_regs :=
  let bs := bytes_of_string tag in
  Regs max_leaf (le_word (firstn 4 bs)) (le_word (firstn 4 (skipn 8 bs)))
       (le_word (firstn 4 (skipn 4 bs))).

(** The registers of one brand leaf whose sixteen characters are [text]. *)
Definition block_regs (text : string) : cpu_regs :=
  let bs := bytes_of_string text in
  Regs (le_word (firstn 4 bs)) (le_word (firstn 4 (skipn 4 bs)))
       (le_word (firstn 4 (skipn 8 bs))) (le_word (firstn 4 (skipn 12 bs))).

Inductive ext_flag : Type :=
| F_MMX | F_SSE | F_SSE2 | F_SSE3 | F_SSE41 | F_SSE42 | F_AVX.

Definition all_flags : list ext_flag :=
  [F_MMX; F_SSE; F_SSE2; F_SSE3; F_SSE41; F_SSE42; F_AVX].

Definition ext_flag_eqb (f g : ext_flag) : bool :=
  match f, g with
  | F_MMX, F_MMX | F_SSE, F_SSE | F_SSE2, F_SSE2 | F_SSE3, F_SSE3
  | F_SSE41, F_SSE41 | F_SSE42, F_SSE42 | F_AVX, F_AVX => true
  | _, _ => false
  end.

(** Registers that are zero except for the one bit the table gives [f]. *)
Definition only_bit (f : ext_flag) : cpu_regs :=
  match f with
  | F_MMX => Regs 0 0 0 (2 ^ 23)
  | F_SSE => Regs 0 0 0 (2 ^ 25)
  | F_SSE2 => Regs 0 0 0 (2 ^ 26)
  | F_SSE3 => Regs 0 0 (2 ^ 0) 0
  | F_SSE41 => Regs 0 0 (2 ^ 19) 0
  | F_SSE42 => Regs 0 0 (2 ^ 20) 0
  | F_AVX => Regs 0 0 (2 ^ 28) 0
  end.

(** The fields of a snapshot other than the two strings. *)
Definition other_fields (s : corinfo) : list Z :=
  [CpuCount s; CpuFrequency s; MMX s; SSE s; SSE2 s; SSE3 s; SSE41 s; SSE42 s; AVX s;
   RamSize s; RamFree s; RamUsage s].

(** The fields the identification phase fills. *)
Definition cpu_fields (s : corinfo) : list Z * list Z * list Z :=
  (VendorString s, BrandString s, flags s).

Definition vendor_store (e : event) : bool :=
  match e with
  | EvStore (L_VendorString i) _ => (0 <=? i) && (i <=? 11)
  | _ => false
  end.

Definition brand_store (e : event) : bool :=
  match e with
  | EvStore (L_BrandString i) _ => (0 <=? i) && (i <=? 47)
  | _ => false
  end.

(** A store to one of the five fields the platform collector fills. *)
Definition collector_store (e : event) : bool :=
  match e with
  | EvStore L_CpuCount _ | EvStore L_CpuFrequency _
  | EvStore L_RamSize _ | EvStore L_RamFree _ | EvStore L_RamUsage _ => true
  | _ => false
  end.

Definition is_getline (e : event) : bool :=
  match e with
  | EvCall name => String.eqb name "getline"
  | _ => false
  end.

(** The integer that stands immediately after the first colon of a line. *)
Definition int_after_colon (line : string) : option Z :=
  match strchr line ":" with
  | None => None
  | Some k =>
      match advance (k + 1) line with
      | None => None
      | Some s => atoi s
      end
  end.

(** Sample hosts. *)
Module Sample.

Definition hw (eax : Z) : cpu_regs :=
  if eax =? 0 then vendor_regs 0x16 "GenuineIntel"
  else if eax =? 1 then Regs 0x906EA 0x100800 (2 ^ 0 + 2 ^ 19 + 2 ^ 20) (2 ^ 23 + 2 ^ 25 + 2 ^ 26)
  else if eax =? 0x80000002 then block_regs "Intel(R) Core(TM"
  else if eax =? 0x80000003 then block_regs ") i7 CPU @ 2.40G"
  else if eax =? 0x80000004 then Regs (le_word (bytes_of_string "Hz")) 0 0 0
  else Regs 0 0 0 0.

(** An instance of the floating-point parameter: the expression evaluated
    without rounding error and truncated toward zero. *)
Definition f32_usage (rf rs : Z) : option Z :=
  if rs =? 0 then None
  else let v := Z.quot (100 * (rs - rf)) rs in
       if v <? 0 then None else Some v.

Definition cpuinfo : string := "processor	: 0
vendor_id	: GenuineIntel
cpu MHz		: 2400.000
cache size	: 12288 KB
processor	: 1
cpu MHz		: 1800.000
".

Definition linux (file : option string) (mem_ok : bool) : Linux.host :=
  {| Linux.sysinfo :=
       if mem_ok
       then Some {| Linux.totalram := 8000000000; Linux.freeram := 2000000000 |}
       else None;
     Linux.proc_cpuinfo := file;
     Linux.nprocessors_onln := 8;
     Linux.stack_cpu := Regs 17 (-1) 5 0;
     Linux.stack_MHz := 140737488355328 |}.

Definition win32 (open_result : Z) : Win32.host :=
  {| Win32.dwNumberOfProcessors := 8;
     Win32.ullTotalPhys := 8000000000;
     Win32.ullAvailPhys := 2000000000;
     Win32.dwMemoryLoad := 75;
     Win32.lError := open_result;
     Win32.reg_MHz := Some 2400;
     Win32.stack_cpu := Regs 17 (-1) 5 0 |}.

(** A snapshot left by an earlier successful call on another machine. *)
Definition stale : corinfo :=
  Corinfo 4 3000 (bytes_of_string "AuthenticAMD") (repeat 65 48) 1 1 1 1 0 0 0 16000 8000 50.

End Sample.

(** ** Vocabulary of the further statements *)

Definition is_byte (b : Z) : Prop := 0 <= b < 256.

Definition is_u32 (v : Z) : Prop := 0 <= v < 2 ^ 32.

Definition is_flag (v : Z) : Prop := v = 0 \/ v = 1.

(** The registers as the [int] array holds them when the processor leaves
    the 32-bit patterns of [c]. *)
Definition as_int (c : cpu_regs) : cpu_regs :=
  Regs (to_int (cpu0 c)) (to_int (cpu1 c)) (to_int (cpu2 c)) (to_int (cpu3 c)).

(** The values of EAX of the [cpuid] executions of a log, in order. *)
Definition cpuid_codes (evs : list event) : list Z :=
  flat_map (fun e => match e with EvCpuid a => [a] | _ => [] end) evs.

Definition is_call (name : string) (e : event) : bool :=
  match e with
  | EvCall n => String.eqb n name
  | _ => false
  end.

Definition count_call (name : string) (evs : list event) : nat :=
  length (filter (is_call name) evs).

(** Decimal digits as characters, and the number they write. *)
Definition digit_char (d : Z) : ascii := ascii_of_N (Z.to_N (48 + d)).

Fixpoint digit_string (ds : list Z) (rest : string) : string :=
  match ds with
  | [] => rest
  | d :: r => String (digit_char d) (digit_string r rest)
  end.

Definition digits_value (ds : list Z) : Z :=
  fold_left (fun acc d => acc * 10 + d) ds 0.

(** A string that does not go on with a digit. *)
Definition stops_number (rest : string) : Prop :=
  match rest with
  | EmptyString => True
  | String a _ => isdigit a = false
  end.

(** A string without colon and without null character. *)
Fixpoint plain (s : string) : bool :=
  match s with
  | EmptyString => true
  | String a r => negb (Ascii.eqb a ":") && negb (Ascii.eqb a zero) && plain r
  end.

(** The fields of a snapshot are in the ranges of their C types and the
    arrays have their declared sizes. *)
Definition snapshot_typed (s : corinfo) : Prop :=
  wf_corinfo s /\
  Forall is_byte (VendorString s) /\ Forall is_byte (BrandString s) /\
  Forall is_flag (flags s) /\
  is_u32 (CpuCount s) /\ is_u32 (CpuFrequency s) /\
  is_u32 (RamSize s) /\ is_u32 (RamFree s).

(** ** Vocabulary of the usage percentage *)

(** [u] against the exact percentage [E = 100 * (1 - f / t)], for [t > 0]:
    [E - 1 - 1/1000 < u <= E + 1/1000], both sides multiplied by
    [1000 * t]. *)
Definition near_percentage (u f t : Z) : Prop :=
  100000 * (t - f) - 1001 * t < 1000 * (u * t) <= 100000 * (t - f) + t.

(** The exact percentage rounded down. *)
Definition percentage_floor (f t : Z) : Z := 100 * (t - f) / t.

(** The real number a mantissa and an exponent stand for. *)
Definition bpow2 (e : Z) : R := powerRZ 2 e.

Definition F2R (m e : Z) : R := (IZR m * bpow2 e)%R.

(** The relative error of one rounding to 24 bits, and a rational above
    it. *)
Definition delta : R := bpow2 (-23).

Definition kappa : R := (1 / 8000000)%R.

(** * Facts *)

(** ** Arithmetic of the lane and bit expressions *)

Lemma to_u8_lane (w i : Z) : 0 <= i -> to_u8 (lane w i) = (w / 2 ^ (8 * i)) mod 256.
Proof.
  intros Hi. unfold to_u8, lane.
  change 0xFF with (Z.ones 8).
  rewrite Z.land_ones by lia.
  rewrite Z.shiftr_div_pow2 by lia.
  rewrite Z.mod_mod by lia.
  replace (i * 8) with (8 * i) by lia. reflexivity.
Qed.

Lemma reg_bytes_le (w : Z) : reg_bytes w = le_bytes w.
Proof.
  unfold reg_bytes, le_bytes.
  rewrite !to_u8_lane by lia.
  change (2 ^ (8 * 0)) with 1. rewrite Z.div_1_r. reflexivity.
Qed.

Lemma block_bytes_le (c : cpu_regs) : block_bytes c = le_block c.
Proof. unfold block_bytes, le_block. now rewrite !reg_bytes_le. Qed.

Lemma to_u8_bit (w k : Z) : 0 <= k -> to_u8 (bit w k) = b2z (Z.testbit w k).
Proof.
  intros Hk. unfold to_u8, bit.
  replace (Z.land (Z.shiftr w k) 1) with (Z.shiftr w k mod 2)
    by (symmetry; apply (Z.land_ones (Z.shiftr w k) 1); lia).
  rewrite Z.shiftr_div_pow2 by lia.
  rewrite Z.testbit_spec' by lia.
  pose proof (Z.mod_pos_bound (w / 2 ^ k) 2 ltac:(lia)) as Hb.
  rewrite Z.mod_small by lia.
  destruct (Z.eqb_spec ((w / 2 ^ k) mod 2) 1) as [E | E]; simpl; lia.
Qed.

(** ** Running the decoders *)

Ltac explode l H :=
  repeat (destruct l as [| ? l]; [ discriminate H | simpl in H; apply eq_add_S in H ]);
  destruct l; [ clear H | discriminate H ].

Lemma vendor_string_run (m : machine) :
  length (VendorString (mem m)) = 12%nat ->
  __vendor_string L_VendorString m =
  Some (tt, Machine (with_VendorString
                       (reg_bytes (cpu1 (cpu m)) ++ reg_bytes (cpu3 (cpu m)) ++
                        reg_bytes (cpu2 (cpu m))) (mem m))
                    (cpu m)
                    (trace m ++ stores L_VendorString (vendor_writes (cpu m)))).
Proof.
  destruct m as [s c t]. destruct s as [cc cf vs bs mmx sse sse2 sse3 sse41 sse42 avx rs rf ru].
  simpl. intros H. explode vs H.
  cbv [__vendor_string for_range bind ret get_cpu assign mem cpu trace write_lvalue
       array_set list_set option_map Z.add Z.ltb Z.compare Z.to_nat Pos.to_nat
       Pos.iter_op Init.Nat.add Pos.add Pos.succ].
  rewrite <- !app_assoc. reflexivity.
Qed.

Lemma brand_string_run (hw : Z -> cpu_regs) (m : machine) :
  length (BrandString (mem m)) = 48%nat ->
  __brand_string hw L_BrandString m =
  Some (tt, Machine (with_BrandString
                       (block_bytes (hw 0x80000002) ++ block_bytes (hw 0x80000003) ++
                        block_bytes (hw 0x80000004)) (mem m))
                    (hw 0x80000004)
                    (trace m ++ brand_events hw)).
Proof.
  destruct m as [s c t]. destruct s as [cc cf vs bs mmx sse sse2 sse3 sse41 sse42 avx rs rf ru].
  simpl. intros H. explode bs H.
  change (to_u32 (to_int 0x80000002)) with 0x80000002.
  cbv [__brand_string brand_loop commands __cpuid for_range bind ret get_cpu assign
       mem cpu trace write_lvalue array_set list_set option_map Z.add Z.ltb Z.compare
       Z.to_nat Pos.to_nat Pos.iter_op Init.Nat.add Pos.add Pos.succ Pos.compare
       Pos.compare_cont].
  change (to_u32 (to_int 0x80000002)) with 0x80000002.
  change (to_u32 (to_int 0x80000003)) with 0x80000003.
  change (to_u32 (to_int 0x80000004)) with 0x80000004.
  rewrite <- !app_assoc. reflexivity.
Qed.

Lemma extensions_run (hw : Z -> cpu_regs) (m : machine) :
  __extensions hw m =
  Some (tt, Machine (with_flags (hw 1) (mem m)) (hw 1)
                    (trace m ++ extension_events (hw 1))).
Proof.
  destruct m as [s c t]. destruct s as [cc cf vs bs mmx sse sse2 sse3 sse41 sse42 avx rs rf ru].
  cbv [__extensions __cpuid bind ret get_cpu assign mem cpu trace write_lvalue].
  change (to_u32 1) with 1.
  rewrite <- !app_assoc. reflexivity.
Qed.

Lemma null_corinfo_run (m : machine) :
  wf_corinfo (mem m) ->
  __null_corinfo m = Some (tt, Machine zero_corinfo (cpu m) (trace m ++ null_events)).
Proof.
  destruct m as [s c t]. destruct s as [cc cf vs bs mmx sse sse2 sse3 sse41 sse42 avx rs rf ru].
  unfold wf_corinfo. simpl. intros [Hv Hb]. explode vs Hv. explode bs Hb.
  cbv [__null_corinfo for_range bind ret assign mem cpu trace write_lvalue array_set
       list_set option_map Z.add Z.ltb Z.compare Z.to_nat Pos.to_nat Pos.iter_op
       Init.Nat.add Pos.add Pos.succ Pos.compare Pos.compare_cont].
  rewrite <- !app_assoc. reflexivity.
Qed.


(** ** Running the collectors *)

Lemma some_inj {A} (a b : A) : Some a = Some b -> a = b.
Proof. now intros [= ->]. Qed.

Lemma bind_run {A B} (c : C A) (k : A -> C B) (m m' : machine) (a : A) :
  c m = Some (a, m') -> bind c k m = k a m'.
Proof. unfold bind. now intros ->. Qed.

Lemma cpuid_run (hw : Z -> cpu_regs) (command : Z) (m : machine) :
  __cpuid hw command m =
  Some (tt, Machine (mem m) (hw (to_u32 command)) (trace m ++ [EvCpuid (to_u32 command)])).
Proof. reflexivity. Qed.

Lemma call_run (name : string) (m : machine) :
  call name m = Some (tt, Machine (mem m) (cpu m) (trace m ++ [EvCall name])).
Proof. reflexivity. Qed.

Ltac step lem := erewrite bind_run; [| apply lem; cbn [mem cpu trace]; try assumption ].

Lemma identification_run {A} (hw : Z -> cpu_regs) (k : C A) (m : machine) :
  wf_corinfo (mem m) ->
  (__cpuid hw 0x00000000 ;;
   __vendor_string L_VendorString ;;
   __brand_string hw L_BrandString ;;
   __extensions hw ;; k) m =
  k (Machine (identified hw (mem m)) (hw 1) (trace m ++ identification_events hw)).
Proof.
  intros [Hv Hb].
  step cpuid_run. step vendor_string_run. step brand_string_run.
  step extensions_run.
  cbn [mem cpu trace]. change (to_u32 0) with 0.
  unfold identified, identification_events.
  f_equal. f_equal. rewrite <- !app_assoc. reflexivity.
Qed.

Lemma scan_run (lines : list string) (MHz : Z) (m : machine) :
  Linux.scan lines MHz m =
  match Linux.scan_result lines MHz with
  | Some v => Some (v, Machine (mem m) (cpu m)
                               (trace m ++ repeat (EvCall "getline") (Linux.scan_reads lines)))
  | None => None
  end.
Proof.
  revert m. induction lines as [| line rest IH]; intros m.
  - reflexivity.
  - cbn [Linux.scan Linux.scan_result Linux.scan_reads].
    unfold bind at 1. unfold call, emit.
    destruct (Linux.has_marker line).
    + destruct (Linux.parse_MHz line); reflexivity.
    + rewrite IH. cbn [mem cpu trace].
      destruct (Linux.scan_result rest MHz); [| reflexivity].
      rewrite <- app_assoc. reflexivity.
Qed.

Lemma assign_scalar_tail (hw : Z -> cpu_regs) (c : cpu_regs) (t : list event)
    (n fq rs rf u r : Z) :
  (assign L_CpuCount n ;;
   assign L_CpuFrequency fq ;;
   assign L_RamSize rs ;;
   assign L_RamFree rf ;;
   assign L_RamUsage u ;;
   ret r) (Machine (identified hw zero_corinfo) c t) =
  let id := identified hw zero_corinfo in
  Some (r, Machine (Corinfo n fq (VendorString id) (BrandString id)
                            (MMX id) (SSE id) (SSE2 id) (SSE3 id)
                            (SSE41 id) (SSE42 id) (AVX id) rs rf u)
                   c
                   (t ++ [EvStore L_CpuCount n; EvStore L_CpuFrequency fq;
                          EvStore L_RamSize rs; EvStore L_RamFree rf;
                          EvStore L_RamUsage u])).
Proof.
  cbv [bind ret assign mem cpu trace write_lvalue identified with_flags
       with_BrandString with_VendorString VendorString BrandString
       MMX SSE SSE2 SSE3 SSE41 SSE42 AVX CpuCount CpuFrequency RamSize RamFree RamUsage
       zero_corinfo].
  rewrite <- !app_assoc. reflexivity.
Qed.

Lemma linux_GetInfo_run (hw : Z -> cpu_regs) (f : Z -> Z -> option Z)
    (h : Linux.host) (s : corinfo) :
  wf_corinfo s ->
  Linux.corinfo_GetInfo hw f h (Some s) = Linux.summary hw f h.
Proof.
  intros Hwf.
  unfold Linux.corinfo_GetInfo, with_null_check, Linux.GetInfo_body, Linux.summary.
  step null_corinfo_run. step call_run. cbn [mem cpu trace app].
  destruct (Linux.sysinfo h) as [sys |]; [| reflexivity].
  rewrite identification_run by (split; reflexivity).
  step call_run. cbn [mem cpu trace].
  destruct (Linux.proc_cpuinfo h) as [content |].
  2: { cbn [ret mem trace]. rewrite <- !app_assoc. reflexivity. }
  unfold bind at 1. rewrite scan_run.
  destruct (Linux.scan_result (lines_of content) (Linux.stack_MHz h)) as [MHz |];
    [| reflexivity].
  step call_run. step call_run. cbn [mem cpu trace].
  unfold bind at 1 2 3 4 5 6. unfold assign at 1 2 3 4. unfold get_info.
  cbv [write_lvalue identified with_flags with_BrandString with_VendorString
       VendorString BrandString MMX SSE SSE2 SSE3 SSE41 SSE42 AVX
       CpuCount CpuFrequency RamSize RamFree RamUsage zero_corinfo mem cpu trace].
  destruct (f (to_u32 (Linux.freeram sys / 1024)) (to_u32 (Linux.totalram sys / 1024)))
    as [usage |]; [| reflexivity].
  cbv [lift ret bind assign mem cpu trace write_lvalue].
  rewrite <- !app_assoc. reflexivity.
Qed.

Lemma win32_GetInfo_run (hw : Z -> cpu_regs) (h : Win32.host) (s : corinfo) :
  wf_corinfo s ->
  Win32.corinfo_GetInfo hw h (Some s) = Some (Win32.summary hw h).
Proof.
  intros Hwf.
  unfold Win32.corinfo_GetInfo, with_null_check, Win32.GetInfo_body, Win32.summary.
  step null_corinfo_run. step call_run. step call_run. cbn [mem cpu trace].
  rewrite identification_run by (split; reflexivity).
  step call_run. cbn [mem cpu trace].
  destruct (negb (Win32.lError h =? Win32.ERROR_SUCCESS)).
  - step call_run. step call_run. cbn [ret mem cpu trace].
    rewrite <- !app_assoc. reflexivity.
  - step call_run. cbn [mem cpu trace].
    rewrite assign_scalar_tail. cbn zeta. cbn [mem trace].
    rewrite <- !app_assoc. reflexivity.
Qed.

(** ** The scan *)

Lemma to_u32_size_t (v : Z) : to_u32 (to_size_t v) = to_u32 v.
Proof.
  unfold to_u32, to_size_t. apply Z.mod_mod_divide.
  exists (2 ^ 32). reflexivity.
Qed.

Lemma scan_result_first (pre post : list string) (line : string) (MHz : Z) :
  Forall (fun x => Linux.has_marker x = false) pre ->
  Linux.has_marker line = true ->
  Linux.scan_result (pre ++ line :: post) MHz = Linux.parse_MHz line /\
  Linux.scan_reads (pre ++ line :: post) = S (length pre).
Proof.
  intros Hpre Hline. induction Hpre as [| x pre Hx _ IH]; cbn.
  - rewrite Hline. split; reflexivity.
  - rewrite Hx. destruct IH as [-> ->]. split; reflexivity.
Qed.

Lemma scan_result_none (lines : list string) (MHz : Z) :
  Forall (fun x => Linux.has_marker x = false) lines ->
  Linux.scan_result lines MHz = Some MHz /\
  Linux.scan_reads lines = S (length lines).
Proof.
  intros H. induction H as [| x l Hx _ IH]; cbn.
  - split; reflexivity.
  - rewrite Hx. destruct IH as [-> ->]. split; reflexivity.
Qed.

Lemma filter_getline_repeat (n : nat) :
  filter is_getline (repeat (EvCall "getline") n) = repeat (EvCall "getline") n.
Proof. induction n as [| n IH]; cbn; [ reflexivity | now rewrite IH ]. Qed.

Lemma filter_getline_before_scan (hw : Z -> cpu_regs) :
  filter is_getline
    (null_events ++ EvCall "sysinfo" :: identification_events hw ++ [EvCall "fopen"]) = [].
Proof. reflexivity. Qed.

(** ** The identification phase, read field by field *)

Lemma identified_vendor (hw : Z -> cpu_regs) (s : corinfo) :
  VendorString (identified hw s) =
  le_bytes (cpu1 (hw 0)) ++ le_bytes (cpu3 (hw 0)) ++ le_bytes (cpu2 (hw 0)).
Proof.
  cbn [identified with_flags with_BrandString with_VendorString VendorString].
  now rewrite !reg_bytes_le.
Qed.

Lemma identified_brand (hw : Z -> cpu_regs) (s : corinfo) :
  BrandString (identified hw s) =
  le_block (hw 0x80000002) ++ le_block (hw 0x80000003) ++ le_block (hw 0x80000004).
Proof. cbn [identified with_flags BrandString with_BrandString]. now rewrite !block_bytes_le. Qed.

Lemma identified_flags (hw : Z -> cpu_regs) (s : corinfo) :
  flags (identified hw s) =
  [b2z (Z.testbit (cpu3 (hw 1)) 23); b2z (Z.testbit (cpu3 (hw 1)) 25);
   b2z (Z.testbit (cpu3 (hw 1)) 26); b2z (Z.testbit (cpu2 (hw 1)) 0);
   b2z (Z.testbit (cpu2 (hw 1)) 19); b2z (Z.testbit (cpu2 (hw 1)) 20);
   b2z (Z.testbit (cpu2 (hw 1)) 28)].
Proof.
  unfold flags, identified, with_flags; cbn [MMX SSE SSE2 SSE3 SSE41 SSE42 AVX].
  now rewrite !to_u8_bit by lia.
Qed.

(** * The decoders *)

(** C1.  For all register values [w0 .. w3] and every 12-byte destination,
    [__vendor_string] returns and leaves in the destination the four
    little-endian bytes of [cpu[1]] at offsets 0-3, those of [cpu[3]] at
    4-7 and those of [cpu[2]] at 8-11; registers carrying "Genu", "ineI",
    "ntel" in [cpu[1]], [cpu[3]], [cpu[2]] (0x756e6547, 0x49656e69,
    0x6c65746e) decode to the ASCII bytes of "GenuineIntel". *)
Theorem C1_vendor_string_layout :
  (forall (w0 w1 w2 w3 : Z) (s : corinfo) (t : list event),
     length (VendorString s) = 12%nat ->
     exists m',
       __vendor_string L_VendorString (Machine s (Regs w0 w1 w2 w3) t) = Some (tt, m') /\
       VendorString (mem m') = le_bytes w1 ++ le_bytes w3 ++ le_bytes w2 /\
       length (VendorString (mem m')) = 12%nat) /\
  (forall (w0 : Z) (s : corinfo) (t : list event),
     length (VendorString s) = 12%nat ->
     vendor_regs w0 "GenuineIntel" = Regs w0 0x756e6547 0x6c65746e 0x49656e69 /\
     exists m',
       __vendor_string L_VendorString (Machine s (Regs w0 0x756e6547 0x6c65746e 0x49656e69) t)
         = Some (tt, m') /\
       VendorString (mem m') = bytes_of_string "GenuineIntel").
Proof.
  assert (G : forall (w0 w1 w2 w3 : Z) (s : corinfo) (t : list event),
             length (VendorString s) = 12%nat ->
             exists m',
               __vendor_string L_VendorString (Machine s (Regs w0 w1 w2 w3) t)
                 = Some (tt, m') /\
               VendorString (mem m') = le_bytes w1 ++ le_bytes w3 ++ le_bytes w2).
  { intros w0 w1 w2 w3 s t H.
    eexists. split.
    - apply vendor_string_run. exact H.
    - cbn [mem cpu cpu1 cpu2 cpu3 with_VendorString VendorString].
      now rewrite !reg_bytes_le. }
  split.
  - intros w0 w1 w2 w3 s t H.
    destruct (G w0 w1 w2 w3 s t H) as [m' [E V]].
    exists m'. repeat split; try assumption. rewrite V. reflexivity.
  - intros w0 s t H. split; [ reflexivity | ].
    destruct (G w0 0x756e6547 0x6c65746e 0x49656e69 s t H) as [m' [E V]].
    exists m'. split; [ exact E | ]. rewrite V. reflexivity.
Qed.

Lemma C1_vendor_string_layout_witness :
  exists m',
    __vendor_string L_VendorString
      (Machine Sample.stale (Regs 0x16 0x68747541 0x444D4163 0x69746E65) [])
      = Some (tt, m') /\
    VendorString (mem m') = le_bytes 0x68747541 ++ le_bytes 0x69746E65 ++ le_bytes 0x444D4163 /\
    length (VendorString (mem m')) = 12%nat.
Proof.
  apply (proj1 C1_vendor_string_layout 0x16 0x68747541 0x444D4163 0x69746E65
               Sample.stale []).
  reflexivity.
Defined.

(** C2.  After [__extensions], whatever the processor answers to leaf 1,
    each flag is the boolean value of its bit: MMX, SSE, SSE2 are bits 23,
    25, 26 of [cpu[3]]; SSE3, SSE4.1, SSE4.2, AVX are bits 0, 19, 20, 28 of
    [cpu[2]].  When the answer has only the bit of one flag set, that flag
    is 1 and the six others are 0. *)
Theorem C2_extension_bits :
  (forall (hw : Z -> cpu_regs) (m : machine),
     exists m',
       __extensions hw m = Some (tt, m') /\
       MMX (mem m') = b2z (Z.testbit (cpu3 (hw 1)) 23) /\
       SSE (mem m') = b2z (Z.testbit (cpu3 (hw 1)) 25) /\
       SSE2 (mem m') = b2z (Z.testbit (cpu3 (hw 1)) 26) /\
       SSE3 (mem m') = b2z (Z.testbit (cpu2 (hw 1)) 0) /\
       SSE41 (mem m') = b2z (Z.testbit (cpu2 (hw 1)) 19) /\
       SSE42 (mem m') = b2z (Z.testbit (cpu2 (hw 1)) 20) /\
       AVX (mem m') = b2z (Z.testbit (cpu2 (hw 1)) 28)) /\
  (forall (f : ext_flag) (m : machine),
     exists m',
       __extensions (fun _ => only_bit f) m = Some (tt, m') /\
       flags (mem m') = map (fun g => b2z (ext_flag_eqb g f)) all_flags).
Proof.
  split.
  - intros hw m. eexists. split; [ apply extensions_run | ].
    cbn [mem with_flags MMX SSE SSE2 SSE3 SSE41 SSE42 AVX].
    rewrite !to_u8_bit by lia. repeat split.
  - intros f m. eexists. split; [ apply extensions_run | ].
    destruct f; reflexivity.
Qed.

(** C3.  [__brand_string] executes [cpuid] exactly three times, with EAX
    0x80000002, 0x80000003, 0x80000004 in this order, and leaves in a
    48-byte destination the three 16-byte blocks of the answers in call
    order, each block the little-endian bytes of [cpu[0]], [cpu[1]],
    [cpu[2]], [cpu[3]]. *)
Theorem C3_brand_string_blocks :
  forall (hw : Z -> cpu_regs) (m : machine),
    length (BrandString (mem m)) = 48%nat ->
    exists m' evs,
      __brand_string hw L_BrandString m = Some (tt, m') /\
      trace m' = trace m ++ evs /\
      filter is_cpuid evs = [EvCpuid 0x80000002; EvCpuid 0x80000003; EvCpuid 0x80000004] /\
      BrandString (mem m') =
        le_block (hw 0x80000002) ++ le_block (hw 0x80000003) ++ le_block (hw 0x80000004) /\
      length (BrandString (mem m')) = 48%nat /\
      firstn 16 (BrandString (mem m')) = le_block (hw 0x80000002) /\
      firstn 16 (skipn 16 (BrandString (mem m'))) = le_block (hw 0x80000003) /\
      skipn 32 (BrandString (mem m')) = le_block (hw 0x80000004).
Proof.
  intros hw m H. eexists. exists (brand_events hw).
  split; [ apply brand_string_run; exact H | ].
  cbn [mem trace]. destruct (mem m); cbn [with_BrandString BrandString].
  rewrite !block_bytes_le.
  repeat split.
Qed.

Lemma C3_brand_string_blocks_witness :
  exists m' evs,
    __brand_string Sample.hw L_BrandString (Machine Sample.stale (Regs 0 0 0 0) [])
      = Some (tt, m') /\
    trace m' = [] ++ evs /\
    filter is_cpuid evs = [EvCpuid 0x80000002; EvCpuid 0x80000003; EvCpuid 0x80000004] /\
    BrandString (mem m') =
      le_block (Sample.hw 0x80000002) ++ le_block (Sample.hw 0x80000003) ++
      le_block (Sample.hw 0x80000004) /\
    length (BrandString (mem m')) = 48%nat /\
    firstn 16 (BrandString (mem m')) = le_block (Sample.hw 0x80000002) /\
    firstn 16 (skipn 16 (BrandString (mem m'))) = le_block (Sample.hw 0x80000003) /\
    skipn 32 (BrandString (mem m')) = le_block (Sample.hw 0x80000004).
Proof.
  apply (C3_brand_string_blocks Sample.hw (Machine Sample.stale (Regs 0 0 0 0) [])).
  reflexivity.
Defined.

(** C10.  On a snapshot whose arrays have their declared sizes, both string
    decoders return (no store leaves its array): every store of
    [__vendor_string] goes to [VendorString[i]] with [0 <= i <= 11], every
    store of [__brand_string] to [BrandString[i]] with [0 <= i <= 47], the
    arrays keep their sizes, and after both only these two arrays may
    differ from before. *)
Theorem C10_decoder_stores_in_bounds :
  forall (hw : Z -> cpu_regs) (m : machine),
    wf_corinfo (mem m) ->
    (exists m1 ev1 vs,
       __vendor_string L_VendorString m = Some (tt, m1) /\
       trace m1 = trace m ++ ev1 /\
       forallb vendor_store ev1 = true /\
       length vs = 12%nat /\
       mem m1 = with_VendorString vs (mem m)) /\
    (exists m2 ev2 bs,
       __brand_string hw L_BrandString m = Some (tt, m2) /\
       trace m2 = trace m ++ ev2 /\
       forallb brand_store (filter is_store ev2) = true /\
       length bs = 48%nat /\
       mem m2 = with_BrandString bs (mem m)) /\
    (exists m3 ev3,
       (__vendor_string L_VendorString ;; __brand_string hw L_BrandString) m
         = Some (tt, m3) /\
       trace m3 = trace m ++ ev3 /\
       forallb (fun e => vendor_store e || brand_store e) (filter is_store ev3) = true /\
       other_fields (mem m3) = other_fields (mem m) /\
       wf_corinfo (mem m3)).
Proof.
  intros hw m [Hv Hb]. split; [| split].
  - eexists. exists (stores L_VendorString (vendor_writes (cpu m))).
    exists (reg_bytes (cpu1 (cpu m)) ++ reg_bytes (cpu3 (cpu m)) ++ reg_bytes (cpu2 (cpu m))).
    split; [ apply vendor_string_run; exact Hv | ].
    cbn [mem trace]. repeat split.
  - eexists. exists (brand_events hw).
    exists (block_bytes (hw 0x80000002) ++ block_bytes (hw 0x80000003) ++
            block_bytes (hw 0x80000004)).
    split; [ apply brand_string_run; exact Hb | ].
    cbn [mem trace]. repeat split.
  - eexists. eexists. split.
    + step vendor_string_run. apply brand_string_run.
      cbn [mem]. destruct (mem m); exact Hb.
    + cbn [mem trace]. rewrite <- app_assoc.
      destruct (mem m). repeat split.
Qed.

Lemma C10_decoder_stores_in_bounds_witness :
  exists m3 ev3,
    (__vendor_string L_VendorString ;; __brand_string Sample.hw L_BrandString)
      (Machine Sample.stale (Sample.hw 0) []) = Some (tt, m3) /\
    trace m3 = [] ++ ev3 /\
    forallb (fun e => vendor_store e || brand_store e) (filter is_store ev3) = true /\
    other_fields (mem m3) = other_fields Sample.stale /\
    wf_corinfo (mem m3).
Proof.
  apply (C10_decoder_stores_in_bounds Sample.hw (Machine Sample.stale (Sample.hw 0) [])).
  split; reflexivity.
Defined.

(** * The collector *)

(** C9.  With a null [info], both variants of [corinfo_GetInfo] return -1
    with an empty log: no library or system call, no [cpuid], no store. *)
Theorem C9_null_target_rejected :
  (forall (hw : Z -> cpu_regs) (f : Z -> Z -> option Z) (h : Linux.host),
     Linux.corinfo_GetInfo hw f h None = Some (Outcome (-1) None [])) /\
  (forall (hw : Z -> cpu_regs) (h : Win32.host),
     Win32.corinfo_GetInfo hw h None = Some (Outcome (-1) None [])).
Proof. split; reflexivity. Qed.

(** C5.  Registry-based variant: when [RegOpenKeyEx] does not report
    success, [corinfo_GetInfo] returns 0; the vendor string, the brand
    string and the seven flags hold what the identification phase decoded,
    and [CpuCount], [CpuFrequency], [RamSize], [RamFree], [RamUsage] are 0,
    no store to them following the initial zeroing. *)
Theorem C5_win32_open_failure_is_silent :
  forall (hw : Z -> cpu_regs) (h : Win32.host) (s : corinfo),
    wf_corinfo s ->
    Win32.lError h <> Win32.ERROR_SUCCESS ->
    exists snap rest,
      Win32.corinfo_GetInfo hw h (Some s)
        = Some (Outcome 0 (Some snap) (null_events ++ rest)) /\
      forallb (fun e => negb (collector_store e)) rest = true /\
      CpuCount snap = 0 /\ CpuFrequency snap = 0 /\
      RamSize snap = 0 /\ RamFree snap = 0 /\ RamUsage snap = 0 /\
      VendorString snap =
        le_bytes (cpu1 (hw 0)) ++ le_bytes (cpu3 (hw 0)) ++ le_bytes (cpu2 (hw 0)) /\
      BrandString snap =
        le_block (hw 0x80000002) ++ le_block (hw 0x80000003) ++ le_block (hw 0x80000004) /\
      flags snap =
        [b2z (Z.testbit (cpu3 (hw 1)) 23); b2z (Z.testbit (cpu3 (hw 1)) 25);
         b2z (Z.testbit (cpu3 (hw 1)) 26); b2z (Z.testbit (cpu2 (hw 1)) 0);
         b2z (Z.testbit (cpu2 (hw 1)) 19); b2z (Z.testbit (cpu2 (hw 1)) 20);
         b2z (Z.testbit (cpu2 (hw 1)) 28)].
Proof.
  intros hw h s Hwf Herr.
  rewrite (win32_GetInfo_run hw h s Hwf). unfold Win32.summary.
  destruct (Z.eqb_spec (Win32.lError h) Win32.ERROR_SUCCESS) as [E | _];
    [ contradiction | ].
  cbn [negb]. cbv zeta. rewrite <- app_assoc.
  eexists. eexists. split; [ reflexivity | ].
  rewrite identified_vendor, identified_brand, identified_flags.
  repeat split.
Qed.

Lemma C5_win32_open_failure_is_silent_witness :
  exists snap rest,
    Win32.corinfo_GetInfo Sample.hw (Sample.win32 2) (Some Sample.stale)
      = Some (Outcome 0 (Some snap) (null_events ++ rest)) /\
    forallb (fun e => negb (collector_store e)) rest = true /\
    CpuCount snap = 0 /\ CpuFrequency snap = 0 /\
    RamSize snap = 0 /\ RamFree snap = 0 /\ RamUsage snap = 0 /\
    VendorString snap =
      le_bytes (cpu1 (Sample.hw 0)) ++ le_bytes (cpu3 (Sample.hw 0)) ++
      le_bytes (cpu2 (Sample.hw 0)) /\
    BrandString snap =
      le_block (Sample.hw 0x80000002) ++ le_block (Sample.hw 0x80000003) ++
      le_block (Sample.hw 0x80000004) /\
    flags snap =
      [b2z (Z.testbit (cpu3 (Sample.hw 1)) 23); b2z (Z.testbit (cpu3 (Sample.hw 1)) 25);
       b2z (Z.testbit (cpu3 (Sample.hw 1)) 26); b2z (Z.testbit (cpu2 (Sample.hw 1)) 0);
       b2z (Z.testbit (cpu2 (Sample.hw 1)) 19); b2z (Z.testbit (cpu2 (Sample.hw 1)) 20);
       b2z (Z.testbit (cpu2 (Sample.hw 1)) 28)].
Proof.
  apply (C5_win32_open_failure_is_silent Sample.hw (Sample.win32 2) Sample.stale).
  - split; reflexivity.
  - discriminate.
Defined.

(** C4, as the code has it.  On a non-null target [corinfo_GetInfo] begins
    by storing zero in every field.  The Unix-like variant returns -1 in
    two cases only.  When [sysinfo] fails the snapshot is zero in every
    field.  When [/proc/cpuinfo] cannot be opened the vendor string, the
    brand string and the flags hold what the identification phase decoded,
    and [CpuCount], [CpuFrequency], [RamSize], [RamFree], [RamUsage] are 0.
    The registry-based variant never returns -1 past the null check. *)
Theorem C4_failure_snapshots :
  forall (hw : Z -> cpu_regs) (f : Z -> Z -> option Z) (h : Linux.host)
         (hwin : Win32.host) (s : corinfo),
    wf_corinfo s ->
    (forall (c : cpu_regs),
       __null_corinfo (Machine s c []) = Some (tt, Machine zero_corinfo c null_events)) /\
    (Linux.sysinfo h = None ->
     Linux.corinfo_GetInfo hw f h (Some s)
       = Some (Outcome (-1) (Some zero_corinfo) (null_events ++ [EvCall "sysinfo"]))) /\
    (Linux.sysinfo h <> None ->
     Linux.proc_cpuinfo h = None ->
     exists snap rest,
       Linux.corinfo_GetInfo hw f h (Some s)
         = Some (Outcome (-1) (Some snap) (null_events ++ rest)) /\
       VendorString snap =
         le_bytes (cpu1 (hw 0)) ++ le_bytes (cpu3 (hw 0)) ++ le_bytes (cpu2 (hw 0)) /\
       BrandString snap =
         le_block (hw 0x80000002) ++ le_block (hw 0x80000003) ++ le_block (hw 0x80000004) /\
       flags snap =
         [b2z (Z.testbit (cpu3 (hw 1)) 23); b2z (Z.testbit (cpu3 (hw 1)) 25);
          b2z (Z.testbit (cpu3 (hw 1)) 26); b2z (Z.testbit (cpu2 (hw 1)) 0);
          b2z (Z.testbit (cpu2 (hw 1)) 19); b2z (Z.testbit (cpu2 (hw 1)) 20);
          b2z (Z.testbit (cpu2 (hw 1)) 28)] /\
       CpuCount snap = 0 /\ CpuFrequency snap = 0 /\
       RamSize snap = 0 /\ RamFree snap = 0 /\ RamUsage snap = 0) /\
    (forall o : outcome,
       Linux.corinfo_GetInfo hw f h (Some s) = Some o ->
       (exists rest, events o = null_events ++ rest) /\
       (status o = -1 -> Linux.sysinfo h = None \/ Linux.proc_cpuinfo h = None)) /\
    (exists snap rest,
       Win32.corinfo_GetInfo hw hwin (Some s)
         = Some (Outcome 0 (Some snap) (null_events ++ rest))).
Proof.
  intros hw f h hwin s Hwf. split; [| split; [| split; [| split]]].
  - intros c. apply (null_corinfo_run (Machine s c [])). exact Hwf.
  - intros E. rewrite (linux_GetInfo_run hw f h s Hwf). unfold Linux.summary.
    rewrite E. reflexivity.
  - intros Hsys Hfile. rewrite (linux_GetInfo_run hw f h s Hwf). unfold Linux.summary.
    destruct (Linux.sysinfo h) as [sys |]; [| contradiction]. rewrite Hfile.
    cbv zeta. eexists. eexists. split; [ reflexivity | ].
    rewrite identified_vendor, identified_brand, identified_flags.
    repeat split.
  - intros o. rewrite (linux_GetInfo_run hw f h s Hwf). unfold Linux.summary.
    destruct (Linux.sysinfo h) as [sys |].
    2: { intros [= <-]. split; [ eexists; reflexivity | now left ]. }
    cbv zeta.
    destruct (Linux.proc_cpuinfo h) as [content |].
    2: { intros [= <-]. split; [ eexists; reflexivity | now right ]. }
    destruct (Linux.scan_result _ _) as [MHz |]; [| discriminate].
    destruct (f _ _) as [usage |]; [| discriminate].
    intros E. apply some_inj in E. subst o. unfold events, status. split.
    + rewrite <- app_assoc. eexists; reflexivity.
    + discriminate.
  - rewrite (win32_GetInfo_run hw hwin s Hwf). unfold Win32.summary. cbv zeta.
    destruct (negb (Win32.lError hwin =? Win32.ERROR_SUCCESS));
      rewrite <- app_assoc; eexists; eexists; reflexivity.
Qed.

Lemma C4_failure_snapshots_witness :
  exists snap rest,
    Linux.corinfo_GetInfo Sample.hw Sample.f32_usage (Sample.linux None true)
      (Some Sample.stale)
      = Some (Outcome (-1) (Some snap) (null_events ++ rest)) /\
    VendorString snap =
      le_bytes (cpu1 (Sample.hw 0)) ++ le_bytes (cpu3 (Sample.hw 0)) ++
      le_bytes (cpu2 (Sample.hw 0)) /\
    BrandString snap =
      le_block (Sample.hw 0x80000002) ++ le_block (Sample.hw 0x80000003) ++
      le_block (Sample.hw 0x80000004) /\
    flags snap =
      [b2z (Z.testbit (cpu3 (Sample.hw 1)) 23); b2z (Z.testbit (cpu3 (Sample.hw 1)) 25);
       b2z (Z.testbit (cpu3 (Sample.hw 1)) 26); b2z (Z.testbit (cpu2 (Sample.hw 1)) 0);
       b2z (Z.testbit (cpu2 (Sample.hw 1)) 19); b2z (Z.testbit (cpu2 (Sample.hw 1)) 20);
       b2z (Z.testbit (cpu2 (Sample.hw 1)) 28)] /\
    CpuCount snap = 0 /\ CpuFrequency snap = 0 /\
    RamSize snap = 0 /\ RamFree snap = 0 /\ RamUsage snap = 0.
Proof.
  apply (C4_failure_snapshots Sample.hw Sample.f32_usage (Sample.linux None true)
           (Sample.win32 0) Sample.stale).
  - split; reflexivity.
  - discriminate.
  - reflexivity.
Defined.

(** C4 as stated fails: with the memory query answered and
    [/proc/cpuinfo] not opening, the call returns -1 and the snapshot
    carries the vendor string. *)
Lemma C4_counterexample :
  ~ (forall (hw : Z -> cpu_regs) (f : Z -> Z -> option Z) (h : Linux.host)
            (s : corinfo) (o : outcome),
       wf_corinfo s ->
       Linux.corinfo_GetInfo hw f h (Some s) = Some o ->
       status o = -1 ->
       snapshot o = Some zero_corinfo).
Proof.
  intros H.
  pose proof (H Sample.hw Sample.f32_usage (Sample.linux None true) zero_corinfo) as H'.
  destruct (Linux.corinfo_GetInfo Sample.hw Sample.f32_usage (Sample.linux None true)
              (Some zero_corinfo)) as [o |] eqn:E; vm_compute in E; [| discriminate E ].
  specialize (H' o (conj eq_refl eq_refl) eq_refl).
  apply some_inj in E. subst o.
  specialize (H' eq_refl). vm_compute in H'. discriminate H'.
Qed.

(** C8, as the code has it.  When [sysinfo] fails, the Unix-like
    [corinfo_GetInfo] returns -1 right after the zeroing: no [cpuid] has
    been executed, nothing is stored after the failed query, and the
    vendor string, the brand string and the flags, like every other field,
    hold the zeros of [__null_corinfo]. *)
Theorem C8_memory_failure_precedes_identification :
  forall (hw : Z -> cpu_regs) (f : Z -> Z -> option Z) (h : Linux.host) (s : corinfo),
    wf_corinfo s ->
    Linux.sysinfo h = None ->
    exists snap evs,
      Linux.corinfo_GetInfo hw f h (Some s) = Some (Outcome (-1) (Some snap) evs) /\
      evs = null_events ++ [EvCall "sysinfo"] /\
      filter is_cpuid evs = [] /\
      cpu_fields snap = (repeat 0 12, repeat 0 48, repeat 0 7) /\
      snap = zero_corinfo.
Proof.
  intros hw f h s Hwf E.
  rewrite (linux_GetInfo_run hw f h s Hwf). unfold Linux.summary. rewrite E.
  eexists. eexists. split; [ reflexivity | ]. repeat split.
Qed.

Lemma C8_memory_failure_precedes_identification_witness :
  exists snap evs,
    Linux.corinfo_GetInfo Sample.hw Sample.f32_usage
      (Sample.linux (Some Sample.cpuinfo) false) (Some Sample.stale)
      = Some (Outcome (-1) (Some snap) evs) /\
    evs = null_events ++ [EvCall "sysinfo"] /\
    filter is_cpuid evs = [] /\
    cpu_fields snap = (repeat 0 12, repeat 0 48, repeat 0 7) /\
    snap = zero_corinfo.
Proof.
  apply (C8_memory_failure_precedes_identification Sample.hw Sample.f32_usage
           (Sample.linux (Some Sample.cpuinfo) false) Sample.stale).
  - split; reflexivity.
  - reflexivity.
Defined.

(** C8 as stated fails: after a failed memory query the vendor string,
    brand string and flags are neither what the identification phase
    decodes nor what the caller's snapshot held before the call. *)
Lemma C8_counterexample :
  ~ (forall (hw : Z -> cpu_regs) (f : Z -> Z -> option Z) (h : Linux.host) (s : corinfo),
       wf_corinfo s ->
       Linux.sysinfo h = None ->
       exists snap evs,
         Linux.corinfo_GetInfo hw f h (Some s) = Some (Outcome (-1) (Some snap) evs) /\
         (cpu_fields snap = cpu_fields (identified hw s) \/
          cpu_fields snap = cpu_fields s)).
Proof.
  intros H.
  destruct (H Sample.hw Sample.f32_usage (Sample.linux (Some Sample.cpuinfo) false)
              Sample.stale (conj eq_refl eq_refl) eq_refl)
    as (snap & evs & E & D).
  vm_compute in E. injection E as <- _.
  destruct D as [D | D]; vm_compute in D; discriminate D.
Qed.

(** C6, as the code has it.  Unix-like variant, memory query answered,
    [/proc/cpuinfo] open and the usage expression defined.  If some line
    begins with "cpu MHz", the scan reads up to the first such line and no
    further; when that line has a colon with at least one byte after it and
    [atoi], started two bytes past the colon, yields an [int] [n], the call
    returns 0 and stores [n] converted to [uint32_t] as the frequency.  If
    no line begins with the marker, every line is read and the stored
    frequency is whatever [MHz] held before the loop. *)
Theorem C6_frequency_scan :
  forall (hw : Z -> cpu_regs) (f : Z -> Z -> option Z) (h : Linux.host) (s : corinfo)
         (sys : Linux.sysinfo_t) (content : string) (usage : Z),
    wf_corinfo s ->
    Linux.sysinfo h = Some sys ->
    Linux.proc_cpuinfo h = Some content ->
    f (to_u32 (Linux.freeram sys / 1024)) (to_u32 (Linux.totalram sys / 1024)) = Some usage ->
    (forall (pre post : list string) (line t : string) (k : nat) (n : Z),
       lines_of content = pre ++ line :: post ->
       Forall (fun x => Linux.has_marker x = false) pre ->
       Linux.has_marker line = true ->
       strchr line ":" = Some k ->
       advance (k + 2) line = Some t ->
       atoi t = Some n ->
       exists snap evs,
         Linux.corinfo_GetInfo hw f h (Some s) = Some (Outcome 0 (Some snap) evs) /\
         CpuFrequency snap = to_u32 n /\
         length (filter is_getline evs) = S (length pre)) /\
    (Forall (fun x => Linux.has_marker x = false) (lines_of content) ->
     exists snap evs,
       Linux.corinfo_GetInfo hw f h (Some s) = Some (Outcome 0 (Some snap) evs) /\
       CpuFrequency snap = to_u32 (Linux.stack_MHz h) /\
       length (filter is_getline evs) = S (length (lines_of content))).
Proof.
  intros hw f h s sys content usage Hwf Hsys Hfile Hf.
  assert (G : forall (MHz : Z) (reads : nat),
             Linux.scan_result (lines_of content) (Linux.stack_MHz h) = Some MHz ->
             Linux.scan_reads (lines_of content) = reads ->
             exists snap evs,
               Linux.corinfo_GetInfo hw f h (Some s) = Some (Outcome 0 (Some snap) evs) /\
               CpuFrequency snap = to_u32 MHz /\
               length (filter is_getline evs) = reads).
  { intros MHz reads HM HR.
    rewrite (linux_GetInfo_run hw f h s Hwf). unfold Linux.summary.
    rewrite Hsys, Hfile. cbv zeta. rewrite HM, Hf, HR.
    eexists. eexists. split; [ reflexivity | ]. split; [ reflexivity | ].
    rewrite filter_app, filter_getline_before_scan.
    rewrite filter_app, filter_getline_repeat.
    cbn [app filter is_getline String.eqb Ascii.eqb Bool.eqb].
    rewrite app_nil_r. apply repeat_length. }
  split.
  - intros pre post line t k n Hlines Hpre Hline Hk Ht Hn.
    destruct (scan_result_first pre post line (Linux.stack_MHz h) Hpre Hline) as [R1 R2].
    rewrite <- Hlines in R1, R2.
    unfold Linux.parse_MHz in R1. rewrite Hk, Ht, Hn in R1. cbn [option_map] in R1.
    destruct (G _ _ R1 R2) as (snap & evs & E & F & L).
    exists snap, evs. rewrite to_u32_size_t in F. auto.
  - intros Hnone.
    destruct (scan_result_none _ (Linux.stack_MHz h) Hnone) as [R1 R2].
    exact (G _ _ R1 R2).
Qed.

Lemma C6_frequency_scan_witness :
  exists snap evs,
    Linux.corinfo_GetInfo Sample.hw Sample.f32_usage
      (Sample.linux (Some Sample.cpuinfo) true) (Some Sample.stale)
      = Some (Outcome 0 (Some snap) evs) /\
    CpuFrequency snap = to_u32 2400 /\
    length (filter is_getline evs) = 3%nat.
Proof.
  refine (proj1 (C6_frequency_scan Sample.hw Sample.f32_usage
                   (Sample.linux (Some Sample.cpuinfo) true) Sample.stale
                   {| Linux.totalram := 8000000000; Linux.freeram := 2000000000 |}
                   Sample.cpuinfo 75 _ _ _ _)
                (firstn 2 (lines_of Sample.cpuinfo)) (skipn 3 (lines_of Sample.cpuinfo))
                (nth 2 (lines_of Sample.cpuinfo) EmptyString) "2400.000
"%string 9%nat 2400 _ _ _ _ _ _).
  - split; reflexivity.
  - reflexivity.
  - reflexivity.
  - vm_compute; reflexivity.
  - vm_compute; reflexivity.
  - vm_compute; repeat constructor.
  - vm_compute; reflexivity.
  - vm_compute; reflexivity.
  - vm_compute; reflexivity.
  - vm_compute; reflexivity.
Defined.

(** C6 as stated fails: on a marker line whose number follows the colon
    directly, the stored frequency is not the integer that stands
    immediately after the colon. *)
Lemma C6_counterexample :
  ~ (forall (hw : Z -> cpu_regs) (f : Z -> Z -> option Z) (h : Linux.host) (s : corinfo)
            (sys : Linux.sysinfo_t) (content : string) (usage : Z)
            (pre post : list string) (line : string),
       wf_corinfo s ->
       Linux.sysinfo h = Some sys ->
       Linux.proc_cpuinfo h = Some content ->
       f (to_u32 (Linux.freeram sys / 1024)) (to_u32 (Linux.totalram sys / 1024))
         = Some usage ->
       lines_of content = pre ++ line :: post ->
       Forall (fun x => Linux.has_marker x = false) pre ->
       Linux.has_marker line = true ->
       exists snap evs n,
         Linux.corinfo_GetInfo hw f h (Some s) = Some (Outcome 0 (Some snap) evs) /\
         int_after_colon line = Some n /\
         CpuFrequency snap = to_u32 n).
Proof.
  intros H.
  set (sys := {| Linux.totalram := 8000000000; Linux.freeram := 2000000000 |}).
  assert (Hf : Sample.f32_usage (to_u32 (Linux.freeram sys / 1024))
                                (to_u32 (Linux.totalram sys / 1024)) = Some 75)
    by (vm_compute; reflexivity).
  set (content := "cpu MHz:2400
"%string).
  assert (Hl : lines_of content = [] ++ content :: []) by (vm_compute; reflexivity).
  assert (Hm : Linux.has_marker content = true) by (vm_compute; reflexivity).
  destruct (H Sample.hw Sample.f32_usage (Sample.linux (Some content) true) zero_corinfo
              sys content 75 [] [] content
              (conj eq_refl eq_refl) eq_refl eq_refl Hf Hl (Forall_nil _) Hm)
    as (snap & evs & n & E & I & F).
  vm_compute in E. apply some_inj in E. injection E as <- _.
  vm_compute in I. apply some_inj in I. subst n.
  vm_compute in F. discriminate F.
Qed.

(** A marker line without a colon: [strchr] yields a null pointer and the
    program has no defined result. *)
Example marker_line_without_colon :
  Linux.corinfo_GetInfo Sample.hw Sample.f32_usage
    (Sample.linux (Some "cpu MHz
"%string) true) (Some zero_corinfo) = None.
Proof. vm_compute. reflexivity. Qed.

(** * Further properties *)

(** ** Bytes, words and bits *)

Lemma le_bytes_is_byte (w : Z) : Forall is_byte (le_bytes w).
Proof.
  unfold le_bytes, is_byte.
  repeat constructor; apply Z.mod_pos_bound; lia.
Qed.

Lemma le_block_is_byte (c : cpu_regs) : Forall is_byte (le_block c).
Proof.
  unfold le_block. rewrite !Forall_app. repeat split; apply le_bytes_is_byte.
Qed.

Lemma b2z_is_flag (b : bool) : is_flag (b2z b).
Proof. destruct b; [ right | left ]; reflexivity. Qed.

Lemma to_u32_is_u32 (v : Z) : is_u32 (to_u32 v).
Proof. unfold is_u32, to_u32. apply Z.mod_pos_bound. lia. Qed.

Lemma code_is_byte (a : ascii) : is_byte (code a).
Proof.
  unfold is_byte, code. pose proof (N_ascii_bounded a). lia.
Qed.

Lemma le_bytes_le_word (a b c d : Z) :
  is_byte a -> is_byte b -> is_byte c -> is_byte d ->
  le_bytes (le_word [a; b; c; d]) = [a; b; c; d].
Proof.
  unfold is_byte, le_bytes, le_word. intros Ha Hb Hc Hd.
  change (2 ^ 8) with 256. change (2 ^ 16) with 65536. change (2 ^ 24) with 16777216.
  repeat f_equal; Z.div_mod_to_equations; lia.
Qed.

Lemma to_int_congruent (u : Z) : exists k, to_int u = u + k * 2 ^ 32.
Proof.
  exists (- ((u + 2 ^ 31) / 2 ^ 32)). unfold to_int.
  pose proof (Z.div_mod (u + 2 ^ 31) (2 ^ 32) ltac:(lia)). lia.
Qed.

Lemma lane_congruent (u k j : Z) :
  0 <= j <= 24 ->
  ((u + k * 2 ^ 32) / 2 ^ j) mod 256 = (u / 2 ^ j) mod 256.
Proof.
  intros Hj.
  replace (k * 2 ^ 32) with (k * 2 ^ (24 - j) * 256 * 2 ^ j).
  - rewrite Z.div_add by (apply Z.pow_nonzero; lia).
    apply Z.mod_add. lia.
  - rewrite <- !Z.mul_assoc. f_equal.
    change 256 with (2 ^ 8). rewrite <- !Z.pow_add_r by lia. f_equal. lia.
Qed.

Lemma le_bytes_congruent (u k : Z) : le_bytes (u + k * 2 ^ 32) = le_bytes u.
Proof.
  unfold le_bytes.
  pose proof (lane_congruent u k 0 ltac:(lia)) as H0.
  change (2 ^ 0) with 1 in H0. rewrite !Z.div_1_r in H0.
  rewrite H0, (lane_congruent u k 8), (lane_congruent u k 16), (lane_congruent u k 24)
    by lia.
  reflexivity.
Qed.

Lemma testbit_congruent (u k j : Z) :
  0 <= j < 32 -> Z.testbit (u + k * 2 ^ 32) j = Z.testbit u j.
Proof.
  intros Hj.
  rewrite <- (Z.mod_pow2_bits_low (u + k * 2 ^ 32) 32 j) by lia.
  rewrite <- (Z.mod_pow2_bits_low u 32 j) by lia.
  now rewrite Z.mod_add by lia.
Qed.

Lemma le_bytes_to_int (u : Z) : le_bytes (to_int u) = le_bytes u.
Proof. destruct (to_int_congruent u) as [k ->]. apply le_bytes_congruent. Qed.

Lemma testbit_to_int (u j : Z) : 0 <= j < 32 -> Z.testbit (to_int u) j = Z.testbit u j.
Proof. intros Hj. destruct (to_int_congruent u) as [k ->]. now apply testbit_congruent. Qed.

Ltac explode_string x H :=
  repeat (destruct x as [| ? x]; [ discriminate H | simpl in H; apply eq_add_S in H ]);
  destruct x; [ clear H | discriminate H ].

Lemma block_regs_bytes (a0 a1 a2 a3 b0 b1 b2 b3 c0 c1 c2 c3 d0 d1 d2 d3 : Z) :
  Forall is_byte [a0; a1; a2; a3; b0; b1; b2; b3; c0; c1; c2; c3; d0; d1; d2; d3] ->
  block_bytes (Regs (le_word [a0; a1; a2; a3]) (le_word [b0; b1; b2; b3])
                    (le_word [c0; c1; c2; c3]) (le_word [d0; d1; d2; d3]))
  = [a0; a1; a2; a3; b0; b1; b2; b3; c0; c1; c2; c3; d0; d1; d2; d3].
Proof.
  intros H.
  repeat match goal with
         | H : Forall _ (_ :: _) |- _ =>
             let H1 := fresh "B" in apply Forall_cons_iff in H; destruct H as [H1 H]
         end.
  unfold block_bytes. cbn [cpu0 cpu1 cpu2 cpu3].
  rewrite !reg_bytes_le, !le_bytes_le_word by assumption. reflexivity.
Qed.

Lemma bytes_of_string_is_byte (s : string) : Forall is_byte (bytes_of_string s).
Proof.
  unfold bytes_of_string. induction s as [| a s IH]; cbn; constructor.
  - apply code_is_byte.
  - exact IH.
Qed.

Lemma block_regs_decodes (text : string) :
  String.length text = 16%nat ->
  block_bytes (block_regs text) = bytes_of_string text.
Proof.
  intros H. explode_string text H.
  unfold block_regs.
  cbn [bytes_of_string list_ascii_of_string map firstn skipn].
  apply block_regs_bytes.
  repeat constructor; apply code_is_byte.
Qed.

Lemma bytes_of_string_app (s t : string) :
  bytes_of_string (s ++ t) = bytes_of_string s ++ bytes_of_string t.
Proof.
  unfold bytes_of_string. induction s as [| a s IH]; cbn; [ reflexivity | ].
  now rewrite IH.
Qed.

(** ** Round trips *)

(** X1.  Whatever twelve characters the processor reports as its vendor
    tag (characters 0-3 in [cpu[1]], 4-7 in [cpu[3]], 8-11 in [cpu[2]]),
    [__vendor_string] writes exactly these twelve bytes, in order. *)
Theorem vendor_string_round_trip :
  forall (tag : string) (w0 : Z) (s : corinfo) (t : list event),
    String.length tag = 12%nat ->
    length (VendorString s) = 12%nat ->
    exists m',
      __vendor_string L_VendorString (Machine s (vendor_regs w0 tag) t) = Some (tt, m') /\
      VendorString (mem m') = bytes_of_string tag.
Proof.
  intros tag w0 s t Htag Hs. eexists. split.
  - apply vendor_string_run. exact Hs.
  - cbn [mem cpu with_VendorString VendorString].
    explode_string tag Htag.
    unfold vendor_regs.
    cbn [bytes_of_string list_ascii_of_string map firstn skipn cpu1 cpu2 cpu3].
    rewrite !reg_bytes_le, !le_bytes_le_word by apply code_is_byte.
    reflexivity.
Qed.

Lemma vendor_string_round_trip_witness :
  exists m',
    __vendor_string L_VendorString
      (Machine Sample.stale (vendor_regs 0x10 "AuthenticAMD") []) = Some (tt, m') /\
    VendorString (mem m') = bytes_of_string "AuthenticAMD".
Proof.
  apply (vendor_string_round_trip "AuthenticAMD" 0x10 Sample.stale []); reflexivity.
Defined.

(** X2.  When the three brand leaves answer with the sixteen-character
    pieces [t1], [t2], [t3] of a name (four characters per register, in
    register order), [__brand_string] writes the 48 bytes of
    [t1 ++ t2 ++ t3]. *)
Theorem brand_string_round_trip :
  forall (hw : Z -> cpu_regs) (t1 t2 t3 : string) (m : machine),
    String.length t1 = 16%nat ->
    String.length t2 = 16%nat ->
    String.length t3 = 16%nat ->
    hw 0x80000002 = block_regs t1 ->
    hw 0x80000003 = block_regs t2 ->
    hw 0x80000004 = block_regs t3 ->
    length (BrandString (mem m)) = 48%nat ->
    exists m',
      __brand_string hw L_BrandString m = Some (tt, m') /\
      BrandString (mem m') = bytes_of_string (t1 ++ t2 ++ t3).
Proof.
  intros hw t1 t2 t3 m H1 H2 H3 E1 E2 E3 Hm. eexists. split.
  - apply brand_string_run. exact Hm.
  - cbn [mem]. destruct (mem m); cbn [with_BrandString BrandString].
    rewrite E1, E2, E3, !block_regs_decodes by assumption.
    now rewrite !bytes_of_string_app.
Qed.

Lemma brand_string_round_trip_witness :
  exists m',
    __brand_string Sample.hw L_BrandString (Machine Sample.stale (Regs 0 0 0 0) [])
      = Some (tt, m') /\
    BrandString (mem m') =
      bytes_of_string ("Intel(R) Core(TM" ++ ") i7 CPU @ 2.40G" ++
                       String "H" (String "z" (string_of_list_ascii (repeat zero 14)))).
Proof.
  apply (brand_string_round_trip Sample.hw "Intel(R) Core(TM" ") i7 CPU @ 2.40G"
           (String "H" (String "z" (string_of_list_ascii (repeat zero 14))))
           (Machine Sample.stale (Regs 0 0 0 0) []));
    vm_compute; reflexivity.
Defined.

(** ** Signed registers *)

(** X3.  The identification phase reads bit patterns: when the array holds
    each register converted to [int] (negative as soon as bit 31 is set),
    the bytes and flags written are still those of the 32-bit values the
    processor produced. *)
Theorem identification_reads_bit_patterns :
  forall (hw : Z -> cpu_regs) (m : machine),
    wf_corinfo (mem m) ->
    exists m',
      (__cpuid (fun eax => as_int (hw eax)) 0x00000000 ;;
       __vendor_string L_VendorString ;;
       __brand_string (fun eax => as_int (hw eax)) L_BrandString ;;
       __extensions (fun eax => as_int (hw eax))) m = Some (tt, m') /\
      VendorString (mem m') =
        le_bytes (cpu1 (hw 0)) ++ le_bytes (cpu3 (hw 0)) ++ le_bytes (cpu2 (hw 0)) /\
      BrandString (mem m') =
        le_block (hw 0x80000002) ++ le_block (hw 0x80000003) ++ le_block (hw 0x80000004) /\
      flags (mem m') =
        [b2z (Z.testbit (cpu3 (hw 1)) 23); b2z (Z.testbit (cpu3 (hw 1)) 25);
         b2z (Z.testbit (cpu3 (hw 1)) 26); b2z (Z.testbit (cpu2 (hw 1)) 0);
         b2z (Z.testbit (cpu2 (hw 1)) 19); b2z (Z.testbit (cpu2 (hw 1)) 20);
         b2z (Z.testbit (cpu2 (hw 1)) 28)].
Proof.
  intros hw m Hwf.
  pose proof (identification_run (fun eax => as_int (hw eax)) (ret tt) m Hwf) as R.
  eexists. split.
  - etransitivity; [| exact R ].
    unfold bind. destruct (__cpuid _ _ m) as [[[] m1] |]; [| reflexivity ].
    destruct (__vendor_string _ m1) as [[[] m2] |]; [| reflexivity ].
    destruct (__brand_string _ _ m2) as [[[] m3] |]; [| reflexivity ].
    destruct (__extensions _ m3) as [[[] m4] |]; reflexivity.
  - cbn [mem].
    rewrite identified_vendor, identified_brand, identified_flags.
    unfold le_block, as_int. cbn [cpu0 cpu1 cpu2 cpu3].
    rewrite !le_bytes_to_int, !testbit_to_int by lia.
    repeat split.
Qed.

Lemma identification_reads_bit_patterns_witness :
  exists m',
    (__cpuid (fun eax => as_int (Regs 0xFFFFFFFF 0x80000000 0xF0000001 0x82800000))
       0x00000000 ;;
     __vendor_string L_VendorString ;;
     __brand_string (fun eax => as_int (Regs 0xFFFFFFFF 0x80000000 0xF0000001 0x82800000))
       L_BrandString ;;
     __extensions (fun eax => as_int (Regs 0xFFFFFFFF 0x80000000 0xF0000001 0x82800000)))
      (Machine Sample.stale (Regs 0 0 0 0) []) = Some (tt, m') /\
    VendorString (mem m') =
      le_bytes 0x80000000 ++ le_bytes 0x82800000 ++ le_bytes 0xF0000001 /\
    BrandString (mem m') =
      le_block (Regs 0xFFFFFFFF 0x80000000 0xF0000001 0x82800000) ++
      le_block (Regs 0xFFFFFFFF 0x80000000 0xF0000001 0x82800000) ++
      le_block (Regs 0xFFFFFFFF 0x80000000 0xF0000001 0x82800000) /\
    flags (mem m') =
      [b2z (Z.testbit 0x82800000 23); b2z (Z.testbit 0x82800000 25);
       b2z (Z.testbit 0x82800000 26); b2z (Z.testbit 0xF0000001 0);
       b2z (Z.testbit 0xF0000001 19); b2z (Z.testbit 0xF0000001 20);
       b2z (Z.testbit 0xF0000001 28)].
Proof.
  apply (identification_reads_bit_patterns
           (fun _ => Regs 0xFFFFFFFF 0x80000000 0xF0000001 0x82800000)
           (Machine Sample.stale (Regs 0 0 0 0) [])).
  split; reflexivity.
Defined.

(** ** What the decoders take from the array *)

(** X4.  [__brand_string] and [__extensions] use the caller's array as
    scratch space only: what they write does not depend on what it holds
    on entry, and on return it holds the answer to the last leaf they
    asked for (0x80000004, resp. 1), the answer to leaf 0 being lost.
    [__vendor_string] executes no [cpuid] and leaves the array as it was. *)
Theorem decoders_and_the_register_array :
  forall (hw : Z -> cpu_regs) (s : corinfo) (c c' : cpu_regs) (t : list event),
    wf_corinfo s ->
    (exists m1 m1',
       __brand_string hw L_BrandString (Machine s c t) = Some (tt, m1) /\
       __brand_string hw L_BrandString (Machine s c' t) = Some (tt, m1') /\
       m1 = m1' /\ cpu m1 = hw 0x80000004) /\
    (exists m2 m2',
       __extensions hw (Machine s c t) = Some (tt, m2) /\
       __extensions hw (Machine s c' t) = Some (tt, m2') /\
       m2 = m2' /\ cpu m2 = hw 1) /\
    (exists m3 evs,
       __vendor_string L_VendorString (Machine s c t) = Some (tt, m3) /\
       cpu m3 = c /\ trace m3 = t ++ evs /\ cpuid_codes evs = []).
Proof.
  intros hw s c c' t [Hv Hb]. split; [| split].
  - eexists. eexists.
    split; [ apply brand_string_run; exact Hb | ].
    split; [ apply brand_string_run; exact Hb | ].
    split; reflexivity.
  - eexists. eexists.
    split; [ apply extensions_run | ].
    split; [ apply extensions_run | ].
    split; reflexivity.
  - eexists. eexists.
    split; [ apply vendor_string_run; exact Hv | ].
    repeat split.
Qed.

Lemma decoders_and_the_register_array_witness :
  exists m1 m1',
    __brand_string Sample.hw L_BrandString (Machine Sample.stale (Sample.hw 0) [])
      = Some (tt, m1) /\
    __brand_string Sample.hw L_BrandString (Machine Sample.stale (Regs 1 2 3 4) [])
      = Some (tt, m1') /\
    m1 = m1' /\ cpu m1 = Sample.hw 0x80000004.
Proof.
  apply (decoders_and_the_register_array Sample.hw Sample.stale (Sample.hw 0)
           (Regs 1 2 3 4) []).
  split; reflexivity.
Defined.

(** ** Invariants of the collector *)

Lemma zero_corinfo_typed : snapshot_typed zero_corinfo.
Proof.
  assert (Z0 : is_byte 0) by (unfold is_byte; lia).
  assert (F0 : is_flag 0) by (left; reflexivity).
  assert (U0 : is_u32 0) by (unfold is_u32; lia).
  unfold snapshot_typed, wf_corinfo.
  cbn [zero_corinfo VendorString BrandString flags CpuCount CpuFrequency RamSize RamFree
       MMX SSE SSE2 SSE3 SSE41 SSE42 AVX].
  repeat split; try assumption; try reflexivity.
  - apply Forall_forall. intros x Hx. apply repeat_spec in Hx. now subst x.
  - apply Forall_forall. intros x Hx. apply repeat_spec in Hx. now subst x.
  - repeat (constructor; [ exact F0 | ]). constructor.
Qed.

Lemma filled_typed (hw : Z -> cpu_regs) (n fq rs rf u : Z) :
  is_u32 n -> is_u32 fq -> is_u32 rs -> is_u32 rf ->
  snapshot_typed (Corinfo n fq (VendorString (identified hw zero_corinfo))
                          (BrandString (identified hw zero_corinfo))
                          (MMX (identified hw zero_corinfo))
                          (SSE (identified hw zero_corinfo))
                          (SSE2 (identified hw zero_corinfo))
                          (SSE3 (identified hw zero_corinfo))
                          (SSE41 (identified hw zero_corinfo))
                          (SSE42 (identified hw zero_corinfo))
                          (AVX (identified hw zero_corinfo)) rs rf u).
Proof.
  intros Hn Hfq Hrs Hrf.
  pose proof (identified_flags hw zero_corinfo) as F.
  unfold snapshot_typed, wf_corinfo.
  unfold flags in *.
  cbn [VendorString BrandString CpuCount CpuFrequency RamSize RamFree
       MMX SSE SSE2 SSE3 SSE41 SSE42 AVX] in *.
  rewrite F, identified_vendor, identified_brand.
  repeat match goal with |- _ /\ _ => split end; try assumption; try reflexivity.
  - rewrite !Forall_app. repeat split; apply le_bytes_is_byte.
  - rewrite !Forall_app. repeat split; apply le_block_is_byte.
  - repeat (constructor; [ apply b2z_is_flag | ]). constructor.
Qed.

Lemma identified_typed (hw : Z -> cpu_regs) : snapshot_typed (identified hw zero_corinfo).
Proof.
  apply (filled_typed hw 0 0 0 0 0); unfold is_u32; lia.
Qed.

Lemma linux_outcome_typed (hw : Z -> cpu_regs) (f : Z -> Z -> option Z)
    (h : Linux.host) (s : corinfo) (o : outcome) :
  wf_corinfo s ->
  Linux.corinfo_GetInfo hw f h (Some s) = Some o ->
  exists snap, snapshot o = Some snap /\ snapshot_typed snap.
Proof.
  intros Hwf. rewrite (linux_GetInfo_run hw f h s Hwf). unfold Linux.summary.
  destruct (Linux.sysinfo h) as [sys |].
  2: { intros E. apply some_inj in E. subst o.
       eexists. split; [ reflexivity | apply zero_corinfo_typed ]. }
  cbv zeta.
  destruct (Linux.proc_cpuinfo h) as [content |].
  2: { intros E. apply some_inj in E. subst o.
       eexists. split; [ reflexivity | apply identified_typed ]. }
  destruct (Linux.scan_result _ _) as [MHz |]; [| discriminate].
  destruct (f _ _) as [usage |]; [| discriminate].
  intros E. apply some_inj in E. subst o.
  eexists. split; [ reflexivity | ].
  apply filled_typed; apply to_u32_is_u32.
Qed.

Lemma win32_outcome_typed (hw : Z -> cpu_regs) (h : Win32.host) :
  exists snap,
    snapshot (Win32.summary hw h) = Some snap /\
    snapshot_typed snap /\ is_u32 (RamUsage snap).
Proof.
  unfold Win32.summary. cbv zeta.
  destruct (negb (Win32.lError h =? Win32.ERROR_SUCCESS)).
  - eexists. split; [ reflexivity | ].
    split; [ apply identified_typed | ]. cbn. unfold is_u32. lia.
  - eexists. split; [ reflexivity | ].
    split; [ apply filled_typed; apply to_u32_is_u32 | apply to_u32_is_u32 ].
Qed.

(** X5.  Whatever the host answers and whatever the target held, a call
    that returns leaves a snapshot whose arrays have 12 and 48 elements,
    whose string bytes are in 0..255, whose seven flags are 0 or 1 and
    whose counters are in the range of [uint32_t]; this holds on the
    failing paths too.  The registry-based variant always returns. *)
Theorem snapshots_are_well_typed :
  forall (hw : Z -> cpu_regs) (f : Z -> Z -> option Z) (h : Linux.host)
         (hwin : Win32.host) (s : corinfo),
    wf_corinfo s ->
    (forall o : outcome,
       Linux.corinfo_GetInfo hw f h (Some s) = Some o ->
       exists snap, snapshot o = Some snap /\ snapshot_typed snap) /\
    (exists o snap,
       Win32.corinfo_GetInfo hw hwin (Some s) = Some o /\
       snapshot o = Some snap /\ snapshot_typed snap /\ is_u32 (RamUsage snap)).
Proof.
  intros hw f h hwin s Hwf. split.
  - intros o. apply linux_outcome_typed. exact Hwf.
  - rewrite (win32_GetInfo_run hw hwin s Hwf).
    destruct (win32_outcome_typed hw hwin) as [snap H].
    exists (Win32.summary hw hwin), snap. split; [ reflexivity | exact H ].
Qed.

Lemma snapshots_are_well_typed_witness :
  exists o snap,
    Win32.corinfo_GetInfo Sample.hw (Sample.win32 0) (Some Sample.stale) = Some o /\
    snapshot o = Some snap /\ snapshot_typed snap /\ is_u32 (RamUsage snap).
Proof.
  apply (snapshots_are_well_typed Sample.hw Sample.f32_usage
           (Sample.linux (Some Sample.cpuinfo) true) (Sample.win32 0) Sample.stale).
  split; reflexivity.
Defined.



(** ** The order of the identification requests *)

Lemma cpuid_codes_app (a b : list event) :
  cpuid_codes (a ++ b) = cpuid_codes a ++ cpuid_codes b.
Proof. unfold cpuid_codes. apply flat_map_app. Qed.

Lemma cpuid_codes_calls (name : string) (n : nat) :
  cpuid_codes (repeat (EvCall name) n) = [].
Proof. induction n as [| n IH]; [ reflexivity | exact IH ]. Qed.

Lemma cpuid_codes_identification (hw : Z -> cpu_regs) :
  cpuid_codes (identification_events hw) =
  [0; 0x80000002; 0x80000003; 0x80000004; 1].
Proof. reflexivity. Qed.

Lemma cpuid_codes_null : cpuid_codes null_events = [].
Proof. reflexivity. Qed.

(** X7.  Once past the memory query, a call that returns has executed
    [cpuid] exactly five times, with EAX 0, 0x80000002, 0x80000003,
    0x80000004 and 1 in this order, whatever the processor answered: the
    maximum leaf reported by leaf 0 is never consulted.  The registry-based
    variant does so on every call. *)
Theorem five_leaves_unconditionally :
  forall (hw : Z -> cpu_regs) (f : Z -> Z -> option Z) (h : Linux.host)
         (hwin : Win32.host) (s : corinfo),
    wf_corinfo s ->
    (forall o : outcome,
       Linux.sysinfo h <> None ->
       Linux.corinfo_GetInfo hw f h (Some s) = Some o ->
       cpuid_codes (events o) = [0; 0x80000002; 0x80000003; 0x80000004; 1]) /\
    (exists o,
       Win32.corinfo_GetInfo hw hwin (Some s) = Some o /\
       cpuid_codes (events o) = [0; 0x80000002; 0x80000003; 0x80000004; 1]).
Proof.
  intros hw f h hwin s Hwf. split.
  - intros o Hsys. rewrite (linux_GetInfo_run hw f h s Hwf). unfold Linux.summary.
    destruct (Linux.sysinfo h) as [sys |]; [| contradiction ]. cbv zeta.
    destruct (Linux.proc_cpuinfo h) as [content |].
    + destruct (Linux.scan_result _ _) as [MHz |]; [| discriminate].
      destruct (f _ _) as [usage |]; [| discriminate].
      intros E. apply some_inj in E. subst o. unfold events.
      rewrite !cpuid_codes_app, cpuid_codes_null, cpuid_codes_calls.
      change (EvCall "sysinfo" :: identification_events hw ++ [EvCall "fopen"])
        with ([EvCall "sysinfo"] ++ identification_events hw ++ [EvCall "fopen"]).
      rewrite !cpuid_codes_app, cpuid_codes_identification. reflexivity.
    + intros E. apply some_inj in E. subst o. unfold events.
      change (EvCall "sysinfo" :: identification_events hw ++ [EvCall "fopen"])
        with ([EvCall "sysinfo"] ++ identification_events hw ++ [EvCall "fopen"]).
      rewrite !cpuid_codes_app, cpuid_codes_null, cpuid_codes_identification.
      reflexivity.
  - rewrite (win32_GetInfo_run hw hwin s Hwf). eexists. split; [ reflexivity | ].
    unfold Win32.summary. cbv zeta.
    change (EvCall "GetSystemInfo" :: EvCall "GlobalMemoryStatusEx"
              :: identification_events hw ++ [EvCall "RegOpenKeyEx"])
      with ([EvCall "GetSystemInfo"; EvCall "GlobalMemoryStatusEx"]
              ++ identification_events hw ++ [EvCall "RegOpenKeyEx"]).
    destruct (negb (Win32.lError hwin =? Win32.ERROR_SUCCESS)); unfold events;
      rewrite !cpuid_codes_app, cpuid_codes_null, cpuid_codes_identification;
      reflexivity.
Qed.

Lemma five_leaves_unconditionally_witness :
  exists o,
    Win32.corinfo_GetInfo (fun _ => Regs 0 0 0 0) (Sample.win32 0) (Some Sample.stale)
      = Some o /\
    cpuid_codes (events o) = [0; 0x80000002; 0x80000003; 0x80000004; 1].
Proof.
  exact (proj2 (five_leaves_unconditionally (fun _ => Regs 0 0 0 0) Sample.f32_usage
                  (Sample.linux None true) (Sample.win32 0) Sample.stale
                  (conj eq_refl eq_refl))).
Defined.

(** ** Success *)

(** X8.  The Unix-like call returns 0 or -1, and 0 exactly when the memory
    query succeeded and the file opened.  A call that returned 0 has
    stored the processor count, [totalram / 1024] and [freeram / 1024],
    each reduced modulo 2^32 (exact below 4 TiB, wrapping from there on),
    and the usage computed from the two stored sizes.  The answer of
    [sysconf] is not checked: its error value -1 is stored as 2^32 - 1. *)
Theorem linux_success_fields :
  forall (hw : Z -> cpu_regs) (f : Z -> Z -> option Z) (h : Linux.host)
         (s : corinfo) (o : outcome),
    wf_corinfo s ->
    Linux.corinfo_GetInfo hw f h (Some s) = Some o ->
    (status o = 0 \/ status o = -1) /\
    (status o = 0 <-> Linux.sysinfo h <> None /\ Linux.proc_cpuinfo h <> None) /\
    (status o = 0 ->
     exists sys snap,
       Linux.sysinfo h = Some sys /\ snapshot o = Some snap /\
       CpuCount snap = Linux.nprocessors_onln h mod 2 ^ 32 /\
       (Linux.nprocessors_onln h = -1 -> CpuCount snap = 2 ^ 32 - 1) /\
       RamSize snap = (Linux.totalram sys / 1024) mod 2 ^ 32 /\
       RamFree snap = (Linux.freeram sys / 1024) mod 2 ^ 32 /\
       (0 <= Linux.totalram sys < 2 ^ 42 -> RamSize snap = Linux.totalram sys / 1024) /\
       (0 <= Linux.freeram sys < 2 ^ 42 -> RamFree snap = Linux.freeram sys / 1024) /\
       f (RamFree snap) (RamSize snap) = Some (RamUsage snap) /\
       cpu_fields snap = cpu_fields (identified hw zero_corinfo)).
Proof.
  intros hw f h s o Hwf. rewrite (linux_GetInfo_run hw f h s Hwf). unfold Linux.summary.
  destruct (Linux.sysinfo h) as [sys |].
  2: { intros E. apply some_inj in E. subst o. cbn [status].
       split; [ now right | ]. split; [ | discriminate ].
       split; [ discriminate | intros [H _]; now contradiction H ]. }
  cbv zeta. destruct (Linux.proc_cpuinfo h) as [content |].
  2: { intros E. apply some_inj in E. subst o. cbn [status].
       split; [ now right | ]. split; [ | discriminate ].
       split; [ discriminate | intros [_ H]; now contradiction H ]. }
  destruct (Linux.scan_result _ _) as [MHz |]; [| discriminate].
  destruct (f _ _) as [usage |] eqn:Hf; [| discriminate].
  intros E. apply some_inj in E. subst o. cbn [status snapshot].
  split; [ now left | ]. split.
  - split; [ intros _; split; discriminate | reflexivity ].
  - intros _. eexists. eexists. split; [ reflexivity | ]. split; [ reflexivity | ].
    cbn [CpuCount RamSize RamFree RamUsage]. unfold to_u32 in *.
    repeat match goal with |- _ /\ _ => split end; try reflexivity.
    + intros ->. reflexivity.
    + intros H. apply Z.mod_small. split.
      * apply Z.div_pos; lia.
      * apply Z.div_lt_upper_bound; lia.
    + intros H. apply Z.mod_small. split.
      * apply Z.div_pos; lia.
      * apply Z.div_lt_upper_bound; lia.
    + exact Hf.
Qed.

Lemma linux_success_fields_witness :
  exists o sys snap,
    Linux.corinfo_GetInfo Sample.hw Sample.f32_usage
      (Sample.linux (Some Sample.cpuinfo) true) (Some Sample.stale) = Some o /\
    status o = 0 /\
    Linux.sysinfo (Sample.linux (Some Sample.cpuinfo) true) = Some sys /\
    snapshot o = Some snap /\
    RamSize snap = (Linux.totalram sys / 1024) mod 2 ^ 32 /\
    Sample.f32_usage (RamFree snap) (RamSize snap) = Some (RamUsage snap).
Proof.
  destruct (Linux.corinfo_GetInfo Sample.hw Sample.f32_usage
              (Sample.linux (Some Sample.cpuinfo) true) (Some Sample.stale))
    as [o |] eqn:E.
  - destruct (linux_success_fields Sample.hw Sample.f32_usage
                (Sample.linux (Some Sample.cpuinfo) true) Sample.stale o
                (conj eq_refl eq_refl) E) as (_ & Hiff & Hs).
    assert (S0 : status o = 0) by (apply Hiff; split; discriminate).
    destruct (Hs S0) as (sys & snap & A & B & _ & _ & C & _ & _ & _ & D & _).
    exists o, sys, snap. repeat split; assumption.
  - vm_compute in E. discriminate E.
Defined.

(** X9.  The registry-based call returns 0 on every non-null target.  When
    the key opens, it stores the processor count, the two sizes divided by
    1024 and the load percentage as the host gave them (modulo 2^32), and
    as frequency the value [RegQueryValueEx] wrote; when that call writes
    nothing, the frequency is [_MAX_PATH], the initial value of [dwMHz].
    Nothing is printed then; when the key does not open, the value is not
    queried and the message is printed once with [wprintf]. *)
Theorem win32_success_fields :
  forall (hw : Z -> cpu_regs) (h : Win32.host) (s : corinfo),
    wf_corinfo s ->
    exists snap evs,
      Win32.corinfo_GetInfo hw h (Some s) = Some (Outcome 0 (Some snap) evs) /\
      cpu_fields snap = cpu_fields (identified hw zero_corinfo) /\
      (Win32.lError h = Win32.ERROR_SUCCESS ->
       CpuCount snap = Win32.dwNumberOfProcessors h mod 2 ^ 32 /\
       RamSize snap = (Win32.ullTotalPhys h / 1024) mod 2 ^ 32 /\
       RamFree snap = (Win32.ullAvailPhys h / 1024) mod 2 ^ 32 /\
       RamUsage snap = Win32.dwMemoryLoad h mod 2 ^ 32 /\
       (forall v, Win32.reg_MHz h = Some v -> CpuFrequency snap = v mod 2 ^ 32) /\
       (Win32.reg_MHz h = None -> CpuFrequency snap = Win32._MAX_PATH) /\
       count_call "RegQueryValueEx" evs = 1%nat /\
       count_call "wprintf" evs = 0%nat) /\
      (Win32.lError h <> Win32.ERROR_SUCCESS ->
       count_call "RegQueryValueEx" evs = 0%nat /\ count_call "wprintf" evs = 1%nat).
Proof.
  intros hw h s Hwf.
  rewrite (win32_GetInfo_run hw h s Hwf). unfold Win32.summary. cbv zeta.
  destruct (Z.eqb_spec (Win32.lError h) Win32.ERROR_SUCCESS) as [E | E]; cbn [negb].
  - eexists. eexists. split; [ reflexivity | ]. split; [ reflexivity | ].
    split; [ | contradiction ]. intros _.
    cbn [CpuCount CpuFrequency RamSize RamFree RamUsage]. unfold to_u32.
    repeat match goal with |- _ /\ _ => split end; try reflexivity.
    + intros v ->. reflexivity.
    + intros ->. reflexivity.
  - eexists. eexists. split; [ reflexivity | ]. split; [ reflexivity | ].
    split; [ contradiction | ]. intros _. split; reflexivity.
Qed.

Lemma win32_success_fields_witness :
  exists snap evs,
    Win32.corinfo_GetInfo Sample.hw (Sample.win32 0) (Some Sample.stale)
      = Some (Outcome 0 (Some snap) evs) /\
    cpu_fields snap = cpu_fields (identified Sample.hw zero_corinfo) /\
    (Win32.lError (Sample.win32 0) = Win32.ERROR_SUCCESS ->
     CpuCount snap = Win32.dwNumberOfProcessors (Sample.win32 0) mod 2 ^ 32 /\
     RamSize snap = (Win32.ullTotalPhys (Sample.win32 0) / 1024) mod 2 ^ 32 /\
     RamFree snap = (Win32.ullAvailPhys (Sample.win32 0) / 1024) mod 2 ^ 32 /\
     RamUsage snap = Win32.dwMemoryLoad (Sample.win32 0) mod 2 ^ 32 /\
     (forall v, Win32.reg_MHz (Sample.win32 0) = Some v ->
                CpuFrequency snap = v mod 2 ^ 32) /\
     (Win32.reg_MHz (Sample.win32 0) = None -> CpuFrequency snap = Win32._MAX_PATH) /\
     count_call "RegQueryValueEx" evs = 1%nat /\
     count_call "wprintf" evs = 0%nat) /\
    (Win32.lError (Sample.win32 0) <> Win32.ERROR_SUCCESS ->
     count_call "RegQueryValueEx" evs = 0%nat /\ count_call "wprintf" evs = 1%nat).
Proof.
  exact (win32_success_fields Sample.hw (Sample.win32 0) Sample.stale
           (conj eq_refl eq_refl)).
Defined.

(** ** Reading the frequency *)

Lemma digit_char_cases (d : Z) :
  0 <= d <= 9 ->
  isdigit (digit_char d) = true /\ isspace (digit_char d) = false /\
  code (digit_char d) = 48 + d /\
  Ascii.eqb (digit_char d) "-" = false /\ Ascii.eqb (digit_char d) "+" = false.
Proof.
  intros H.
  assert (d = 0 \/ d = 1 \/ d = 2 \/ d = 3 \/ d = 4 \/ d = 5 \/ d = 6 \/ d = 7 \/
          d = 8 \/ d = 9) as C by lia.
  repeat (destruct C as [-> | C]; [ repeat split | ]); subst; repeat split.
Qed.

Lemma digits_digit_string (ds : list Z) (acc : Z) (rest : string) :
  Forall (fun d => 0 <= d <= 9) ds ->
  stops_number rest ->
  digits acc (digit_string ds rest) = fold_left (fun a d => a * 10 + d) ds acc.
Proof.
  intros Hds Hrest. revert acc.
  induction Hds as [| d ds Hd _ IH]; intros acc; cbn [digit_string fold_left].
  - destruct rest as [| a r]; [ reflexivity | ].
    cbn [digits]. cbn in Hrest. now rewrite Hrest.
  - destruct (digit_char_cases d Hd) as (D & _ & Cd & _).
    cbn [digits]. rewrite D, Cd, IH. f_equal. lia.
Qed.

Lemma fold_digits_nonneg (ds : list Z) (acc : Z) :
  Forall (fun d => 0 <= d <= 9) ds ->
  0 <= acc ->
  0 <= fold_left (fun a d => a * 10 + d) ds acc.
Proof.
  intros Hds. revert acc.
  induction Hds as [| d ds Hd _ IH]; intros acc Hacc; cbn [fold_left].
  - exact Hacc.
  - apply IH. lia.
Qed.

Lemma atoi_digit_string (ds : list Z) (rest : string) :
  ds <> [] ->
  Forall (fun d => 0 <= d <= 9) ds ->
  digits_value ds <= INT_MAX ->
  stops_number rest ->
  atoi (digit_string ds rest) = Some (digits_value ds).
Proof.
  intros Hne Hds Hmax Hrest.
  destruct ds as [| d ds]; [ contradiction | ].
  pose proof (digits_digit_string (d :: ds) 0 rest Hds Hrest) as V.
  pose proof (fold_digits_nonneg (d :: ds) 0 Hds ltac:(lia)) as P.
  fold (digits_value (d :: ds)) in V, P.
  inversion Hds as [| d' ds' Hd Hds' ]; subst.
  destruct (digit_char_cases d Hd) as (_ & Sp & _ & Mi & Pl).
  unfold atoi. cbn [digit_string skip_space] in *. rewrite Sp.
  assert (M : match String (digit_char d) (digit_string ds rest) with
              | String "-" r => - digits 0 r
              | String "+" r => digits 0 r
              | t => digits 0 t
              end = digits 0 (String (digit_char d) (digit_string ds rest))).
  { destruct (digit_char d) as [[] [] [] [] [] [] [] []]; try reflexivity;
      discriminate. }
  rewrite M, V.
  unfold INT_MIN, INT_MAX in *.
  destruct (Z.leb_spec (- 2 ^ 31) (digits_value (d :: ds))); [| lia ].
  destruct (Z.leb_spec (digits_value (d :: ds)) (2 ^ 31 - 1)); [| lia ].
  reflexivity.
Qed.

Lemma strchr_plain (pad tail : string) :
  plain pad = true ->
  strchr (pad ++ String ":" tail) ":" = Some (String.length pad).
Proof.
  induction pad as [| a pad IH]; intros H.
  - reflexivity.
  - cbn [plain] in H. apply andb_prop in H. destruct H as [H Hp].
    apply andb_prop in H. destruct H as [Hc Hz].
    apply negb_true_iff in Hc, Hz.
    cbn [String.append strchr String.length]. rewrite Hc, Hz, (IH Hp). reflexivity.
Qed.

Lemma advance_append (pad t : string) (n : nat) :
  advance (String.length pad + n) (pad ++ t) = advance n t.
Proof.
  induction pad as [| a pad IH]; [ reflexivity | exact IH ].
Qed.

(** X10.  On a line of the form the kernel writes, the marker, any padding
    without colon, a colon, one byte and a decimal number that fits an
    [int] and is followed by a non-digit, the line is recognised and the
    value read is that number: the byte after the colon is skipped
    whatever it is, and a fractional part is dropped. *)
Theorem frequency_of_a_kernel_line :
  forall (pad rest : string) (x : ascii) (ds : list Z),
    plain pad = true ->
    ds <> [] ->
    Forall (fun d => 0 <= d <= 9) ds ->
    digits_value ds <= INT_MAX ->
    stops_number rest ->
    Linux.has_marker ("cpu MHz" ++ pad ++ String ":" (String x (digit_string ds rest)))
      = true /\
    Linux.parse_MHz ("cpu MHz" ++ pad ++ String ":" (String x (digit_string ds rest)))
      = Some (digits_value ds).
Proof.
  intros pad rest x ds Hpad Hne Hds Hmax Hrest. split; [ destruct pad; reflexivity | ].
  unfold Linux.parse_MHz.
  assert (Hp : plain ("cpu MHz" ++ pad)%string = true) by exact Hpad.
  change ("cpu MHz" ++ pad ++ String ":" (String x (digit_string ds rest)))%string
    with (("cpu MHz" ++ pad) ++ String ":" (String x (digit_string ds rest)))%string.
  rewrite (strchr_plain _ _ Hp).
  rewrite advance_append. cbn [advance].
  rewrite (atoi_digit_string ds rest Hne Hds Hmax Hrest). cbn [option_map].
  f_equal. unfold to_size_t. apply Z.mod_small.
  pose proof (fold_digits_nonneg ds 0 Hds ltac:(lia)) as P. fold (digits_value ds) in P.
  unfold INT_MAX in Hmax. lia.
Qed.

Lemma frequency_of_a_kernel_line_witness :
  Linux.has_marker ("cpu MHz" ++ "		" ++ String ":" (String " " (digit_string [2; 4; 0; 0] ".000
"))) = true /\
  Linux.parse_MHz ("cpu MHz" ++ "		" ++ String ":" (String " " (digit_string [2; 4; 0; 0] ".000
"))) = Some (digits_value [2; 4; 0; 0]).
Proof.
  apply (frequency_of_a_kernel_line "		" ".000
" " " [2; 4; 0; 0]).
  - reflexivity.
  - discriminate.
  - repeat constructor; lia.
  - vm_compute. discriminate.
  - reflexivity.
Defined.

(** X11.  No guard stands between the marker test and the parse: when the
    first line that begins with the marker has no colon ([strchr] returns
    [NULL], and 2 is added to it), or carries, two bytes past its colon, a
    number that does not fit an [int], the call has no defined result,
    whatever follows in the file. *)
Theorem unparsable_marker_line_is_undefined :
  forall (hw : Z -> cpu_regs) (f : Z -> Z -> option Z) (h : Linux.host) (s : corinfo)
         (sys : Linux.sysinfo_t) (content : string) (pre post : list string)
         (line : string),
    wf_corinfo s ->
    Linux.sysinfo h = Some sys ->
    Linux.proc_cpuinfo h = Some content ->
    lines_of content = pre ++ line :: post ->
    Forall (fun x => Linux.has_marker x = false) pre ->
    Linux.has_marker line = true ->
    (strchr line ":" = None \/
     (exists k t, strchr line ":" = Some k /\ advance (k + 2) line = Some t /\
                  atoi t = None)) ->
    Linux.corinfo_GetInfo hw f h (Some s) = None.
Proof.
  intros hw f h s sys content pre post line Hwf Hsys Hfile Hlines Hpre Hline Hbad.
  assert (P : Linux.parse_MHz line = None).
  { unfold Linux.parse_MHz.
    destruct Hbad as [-> | (k & t & -> & -> & ->)]; reflexivity. }
  destruct (scan_result_first pre post line (Linux.stack_MHz h) Hpre Hline) as [R _].
  rewrite <- Hlines, P in R.
  rewrite (linux_GetInfo_run hw f h s Hwf). unfold Linux.summary.
  rewrite Hsys, Hfile. cbv zeta. rewrite R. reflexivity.
Qed.

Lemma unparsable_marker_line_is_undefined_witness :
  Linux.corinfo_GetInfo Sample.hw Sample.f32_usage
    (Sample.linux (Some "processor	: 0
cpu MHz		 2400.000
cpu MHz		: 1800.000
"%string) true) (Some Sample.stale) = None.
Proof.
  refine (unparsable_marker_line_is_undefined Sample.hw Sample.f32_usage
            (Sample.linux (Some "processor	: 0
cpu MHz		 2400.000
cpu MHz		: 1800.000
"%string) true) Sample.stale
            {| Linux.totalram := 8000000000; Linux.freeram := 2000000000 |}
            "processor	: 0
cpu MHz		 2400.000
cpu MHz		: 1800.000
"%string
            ["processor	: 0
"%string]
            ["cpu MHz		: 1800.000
"%string]
            "cpu MHz		 2400.000
"%string _ _ _ _ _ _ _).
  - split; reflexivity.
  - reflexivity.
  - reflexivity.
  - vm_compute; reflexivity.
  - vm_compute; repeat constructor.
  - vm_compute; reflexivity.
  - left. vm_compute; reflexivity.
Defined.

(** ** Sizes of the destinations *)

Lemma vendor_string_run_long (s : corinfo) (c : cpu_regs) (t : list event)
    (old tail : list Z) :
  VendorString s = old ++ tail ->
  length old = 12%nat ->
  __vendor_string L_VendorString (Machine s c t) =
  Some (tt, Machine (with_VendorString
                       (reg_bytes (cpu1 c) ++ reg_bytes (cpu3 c) ++ reg_bytes (cpu2 c)
                        ++ tail) s)
                    c (t ++ stores L_VendorString (vendor_writes c))).
Proof.
  destruct s as [cc cf vs bs mmx sse sse2 sse3 sse41 sse42 avx rs rf ru].
  cbn [VendorString]. intros -> H. explode old H. cbn [app].
  cbv [__vendor_string for_range bind ret get_cpu assign mem cpu trace write_lvalue
       array_set list_set option_map Z.add Z.ltb Z.compare Z.to_nat Pos.to_nat
       Pos.iter_op Init.Nat.add Pos.add Pos.succ].
  rewrite <- !app_assoc. reflexivity.
Qed.

Lemma vendor_string_run_short (s : corinfo) (c : cpu_regs) (t : list event) :
  (length (VendorString s) < 12)%nat ->
  __vendor_string L_VendorString (Machine s c t) = None.
Proof.
  destruct s as [cc cf vs bs mmx sse sse2 sse3 sse41 sse42 avx rs rf ru].
  cbn [VendorString]. intros H.
  do 12 (destruct vs as [| ? vs]; [ vm_compute; reflexivity | ]).
  cbn [length] in H. lia.
Qed.

(** X12.  [__vendor_string] needs twelve bytes behind [string]: on a
    shorter array one of its stores falls outside and the run has no
    defined result; on a longer one it writes the first twelve bytes and
    leaves the others as they were. *)
Theorem vendor_string_destination_size :
  forall (s : corinfo) (c : cpu_regs) (t : list event),
    ((length (VendorString s) < 12)%nat ->
     __vendor_string L_VendorString (Machine s c t) = None) /\
    (forall (old tail : list Z),
       VendorString s = old ++ tail ->
       length old = 12%nat ->
       exists m',
         __vendor_string L_VendorString (Machine s c t) = Some (tt, m') /\
         VendorString (mem m') =
           le_bytes (cpu1 c) ++ le_bytes (cpu3 c) ++ le_bytes (cpu2 c) ++ tail).
Proof.
  intros s c t. split.
  - apply vendor_string_run_short.
  - intros old tail E H. eexists. split.
    + apply (vendor_string_run_long s c t old tail E H).
    + cbn [mem with_VendorString VendorString]. now rewrite !reg_bytes_le.
Qed.

Lemma vendor_string_destination_size_witness :
  __vendor_string L_VendorString
    (Machine (with_VendorString (repeat 0 11) Sample.stale) (Sample.hw 0) []) = None.
Proof.
  apply (proj1 (vendor_string_destination_size
                  (with_VendorString (repeat 0 11) Sample.stale) (Sample.hw 0) [])).
  cbn. lia.
Defined.

Lemma brand_string_run_long (hw : Z -> cpu_regs) (s : corinfo) (c : cpu_regs)
    (t : list event) (old tail : list Z) :
  BrandString s = old ++ tail ->
  length old = 48%nat ->
  __brand_string hw L_BrandString (Machine s c t) =
  Some (tt, Machine (with_BrandString
                       (block_bytes (hw 0x80000002) ++ block_bytes (hw 0x80000003) ++
                        block_bytes (hw 0x80000004) ++ tail) s)
                    (hw 0x80000004) (t ++ brand_events hw)).
Proof.
  destruct s as [cc cf vs bs mmx sse sse2 sse3 sse41 sse42 avx rs rf ru].
  cbn [BrandString]. intros -> H. explode old H. cbn [app].
  cbv [__brand_string brand_loop commands __cpuid for_range bind ret get_cpu assign
       mem cpu trace write_lvalue array_set list_set option_map Z.add Z.ltb Z.compare
       Z.to_nat Pos.to_nat Pos.iter_op Init.Nat.add Pos.add Pos.succ Pos.compare
       Pos.compare_cont].
  change (to_u32 (to_int 0x80000002)) with 0x80000002.
  change (to_u32 (to_int 0x80000003)) with 0x80000003.
  change (to_u32 (to_int 0x80000004)) with 0x80000004.
  rewrite <- !app_assoc. reflexivity.
Qed.

Lemma brand_string_run_short (hw : Z -> cpu_regs) (s : corinfo) (c : cpu_regs)
    (t : list event) :
  (length (BrandString s) < 48)%nat ->
  __brand_string hw L_BrandString (Machine s c t) = None.
Proof.
  destruct s as [cc cf vs bs mmx sse sse2 sse3 sse41 sse42 avx rs rf ru].
  cbn [BrandString]. intros H.
  do 48 (destruct bs as [| ? bs]; [ vm_compute; reflexivity | ]).
  cbn [length] in H. lia.
Qed.

(** X13.  [__brand_string] needs 48 bytes behind [string]: on a shorter
    array the run has no defined result; on a longer one it writes the
    first 48 bytes and leaves the others as they were. *)
Theorem brand_string_destination_size :
  forall (hw : Z -> cpu_regs) (s : corinfo) (c : cpu_regs) (t : list event),
    ((length (BrandString s) < 48)%nat ->
     __brand_string hw L_BrandString (Machine s c t) = None) /\
    (forall (old tail : list Z),
       BrandString s = old ++ tail ->
       length old = 48%nat ->
       exists m',
         __brand_string hw L_BrandString (Machine s c t) = Some (tt, m') /\
         BrandString (mem m') =
           le_block (hw 0x80000002) ++ le_block (hw 0x80000003) ++
           le_block (hw 0x80000004) ++ tail).
Proof.
  intros hw s c t. split.
  - apply brand_string_run_short.
  - intros old tail E H. eexists. split.
    + apply (brand_string_run_long hw s c t old tail E H).
    + cbn [mem with_BrandString BrandString]. now rewrite !block_bytes_le.
Qed.

Lemma brand_string_destination_size_witness :
  exists m',
    __brand_string Sample.hw L_BrandString
      (Machine (with_BrandString (repeat 65 48 ++ [7; 8; 9]) Sample.stale)
               (Regs 0 0 0 0) []) = Some (tt, m') /\
    BrandString (mem m') =
      le_block (Sample.hw 0x80000002) ++ le_block (Sample.hw 0x80000003) ++
      le_block (Sample.hw 0x80000004) ++ [7; 8; 9].
Proof.
  apply (proj2 (brand_string_destination_size Sample.hw
                  (with_BrandString (repeat 65 48 ++ [7; 8; 9]) Sample.stale)
                  (Regs 0 0 0 0) []) (repeat 65 48) [7; 8; 9]);
    reflexivity.
Defined.

(** ** Files and keys *)

Lemma count_call_app (name : string) (a b : list event) :
  count_call name (a ++ b) = (count_call name a + count_call name b)%nat.
Proof. unfold count_call. now rewrite filter_app, length_app. Qed.

Lemma count_call_getlines (name : string) (n : nat) :
  String.eqb "getline" name = false ->
  count_call name (repeat (EvCall "getline") n) = 0%nat.
Proof.
  intros H. unfold count_call.
  induction n as [| n IH]; [ reflexivity | ].
  cbn [repeat filter is_call]. rewrite H. exact IH.
Qed.

(** X14.  The Unix-like call opens the file once, and only after the memory
    query succeeded; a call that returns 0 has closed it once; when the
    open fails nothing is read or closed.  The registry-based call opens
    the key once on every call and never closes it. *)
Theorem files_and_keys :
  forall (hw : Z -> cpu_regs) (f : Z -> Z -> option Z) (h : Linux.host)
         (hwin : Win32.host) (s : corinfo),
    wf_corinfo s ->
    (forall o : outcome,
       Linux.corinfo_GetInfo hw f h (Some s) = Some o ->
       (Linux.sysinfo h = None ->
        count_call "fopen" (events o) = 0%nat /\ count_call "fclose" (events o) = 0%nat) /\
       (Linux.sysinfo h <> None ->
        Linux.proc_cpuinfo h = None ->
        count_call "fopen" (events o) = 1%nat /\
        count_call "getline" (events o) = 0%nat /\
        count_call "fclose" (events o) = 0%nat) /\
       (status o = 0 ->
        count_call "fopen" (events o) = 1%nat /\
        count_call "fclose" (events o) = 1%nat)) /\
    (exists o,
       Win32.corinfo_GetInfo hw hwin (Some s) = Some o /\
       count_call "RegOpenKeyEx" (events o) = 1%nat /\
       count_call "RegCloseKey" (events o) = 0%nat).
Proof.
  intros hw f h hwin s Hwf. split.
  - intros o. rewrite (linux_GetInfo_run hw f h s Hwf). unfold Linux.summary.
    destruct (Linux.sysinfo h) as [sys |].
    2: { intros E. apply some_inj in E. subst o. unfold events, status.
         split; [ intros _; split; reflexivity | ].
         split; [ intros N; now contradiction N | discriminate ]. }
    cbv zeta. destruct (Linux.proc_cpuinfo h) as [content |].
    2: { intros E. apply some_inj in E. subst o. unfold events, status.
         split; [ discriminate | ].
         split; [ intros _ _; repeat split; reflexivity | discriminate ]. }
    destruct (Linux.scan_result _ _) as [MHz |]; [| discriminate].
    destruct (f _ _) as [usage |]; [| discriminate].
    intros E. apply some_inj in E. subst o. unfold events, status.
    split; [ discriminate | ]. split; [ discriminate | ].
    intros _. split.
    + rewrite !count_call_app, count_call_getlines by reflexivity. reflexivity.
    + rewrite !count_call_app, count_call_getlines by reflexivity. reflexivity.
  - rewrite (win32_GetInfo_run hw hwin s Hwf). eexists. split; [ reflexivity | ].
    unfold Win32.summary. cbv zeta.
    destruct (negb (Win32.lError hwin =? Win32.ERROR_SUCCESS)); split; reflexivity.
Qed.

Lemma files_and_keys_witness :
  exists o,
    Win32.corinfo_GetInfo Sample.hw (Sample.win32 0) (Some Sample.stale) = Some o /\
    count_call "RegOpenKeyEx" (events o) = 1%nat /\
    count_call "RegCloseKey" (events o) = 0%nat.
Proof.
  exact (proj2 (files_and_keys Sample.hw Sample.f32_usage
                  (Sample.linux (Some Sample.cpuinfo) true) (Sample.win32 0)
                  Sample.stale (conj eq_refl eq_refl))).
Defined.

(** ** The frame of the flag decoder *)

(** X15.  [__extensions] executes [cpuid] once, with EAX 1, stores to the
    seven flags and to nothing else: the two strings, the processor count,
    the frequency and the three memory fields are as before, whatever the
    sizes of the arrays. *)
Theorem extensions_touch_only_the_flags :
  forall (hw : Z -> cpu_regs) (m : machine),
    exists m' evs,
      __extensions hw m = Some (tt, m') /\
      trace m' = trace m ++ evs /\
      cpuid_codes evs = [1] /\
      length (filter is_store evs) = 7%nat /\
      forallb (fun e => match e with
                        | EvStore (L_MMX | L_SSE | L_SSE2 | L_SSE3
                                   | L_SSE41 | L_SSE42 | L_AVX) _ => true
                        | EvStore _ _ => false
                        | _ => true
                        end) evs = true /\
      VendorString (mem m') = VendorString (mem m) /\
      BrandString (mem m') = BrandString (mem m) /\
      CpuCount (mem m') = CpuCount (mem m) /\
      CpuFrequency (mem m') = CpuFrequency (mem m) /\
      RamSize (mem m') = RamSize (mem m) /\
      RamFree (mem m') = RamFree (mem m) /\
      RamUsage (mem m') = RamUsage (mem m).
Proof.
  intros hw m. eexists. exists (extension_events (hw 1)).
  split; [ apply extensions_run | ].
  cbn [mem trace]. repeat split.
Qed.

(** * The usage percentage of the Unix-like variant *)

Import SpecFloat.

(** ** Mantissas and their sizes *)

Lemma digits2_pos_size (p : positive) : digits2_pos p = Pos.size p.
Proof. induction p; cbn; now rewrite ?IHp. Qed.

Lemma digits2_pos_bounds (p : positive) :
  2 ^ (Zpos (digits2_pos p) - 1) <= Zpos p < 2 ^ Zpos (digits2_pos p).
Proof.
  rewrite digits2_pos_size. split.
  - pose proof (Pos.size_le p) as H.
    apply Pos2Z.pos_le_pos in H. rewrite Pos2Z.inj_pow in H.
    change (Zpos p~0) with (2 * Zpos p) in H.
    replace (Zpos (Pos.size p)) with (Zpos (Pos.size p) - 1 + 1) in H by lia.
    rewrite Z.pow_add_r in H by lia. lia.
  - pose proof (Pos.size_gt p) as H.
    apply Pos2Z.pos_lt_pos in H. now rewrite Pos2Z.inj_pow in H.
Qed.

Lemma digits_unique (p : positive) (d : Z) :
  2 ^ (d - 1) <= Zpos p < 2 ^ d -> Zpos (digits2_pos p) = d.
Proof.
  intros [L U]. pose proof (digits2_pos_bounds p) as [L' U'].
  assert (0 < d). { destruct (Z.ltb_spec 0 d); [ lia | ].
    assert (2 ^ d <= 2 ^ 0) by (apply Z.pow_le_mono_r; lia). simpl in *. lia. }
  destruct (Z.lt_trichotomy (Zpos (digits2_pos p)) d) as [C | [C | C]]; [ | exact C | ].
  - assert (2 ^ Zpos (digits2_pos p) <= 2 ^ (d - 1)) by (apply Z.pow_le_mono_r; lia). lia.
  - assert (2 ^ d <= 2 ^ (Zpos (digits2_pos p) - 1)) by (apply Z.pow_le_mono_r; lia). lia.
Qed.

(** ** Shifting a mantissa right, and rounding it to nearest even *)

Lemma iter_pos_comm {A} (f : A -> A) (p : positive) (x : A) :
  iter_pos f p (f x) = f (iter_pos f p x).
Proof.
  revert x. induction p as [p IH | p IH |]; intros x; cbn.
  - now rewrite !IH.
  - now rewrite !IH.
  - reflexivity.
Qed.

Lemma iter_pos_succ {A} (f : A -> A) (p : positive) (x : A) :
  iter_pos f (Pos.succ p) x = f (iter_pos f p x).
Proof.
  revert x. induction p as [p IH | p IH |]; intros x; cbn.
  - rewrite !IH. now rewrite !iter_pos_comm.
  - now rewrite !iter_pos_comm.
  - reflexivity.
Qed.

Lemma shr_1_m (mrs : shr_record) :
  0 <= shr_m mrs -> shr_m (shr_1 mrs) = shr_m mrs / 2.
Proof.
  destruct mrs as [m r s]. cbn [shr_m]. intros H.
  rewrite <- Z.div2_div.
  destruct m as [| [p | p |] |]; try reflexivity. lia.
Qed.

Lemma iter_shr_m (p : positive) (mrs : shr_record) :
  0 <= shr_m mrs ->
  shr_m (iter_pos shr_1 p mrs) = shr_m mrs / 2 ^ Zpos p.
Proof.
  intros H. induction p using Pos.peano_ind.
  - cbn [iter_pos]. rewrite shr_1_m by exact H. reflexivity.
  - rewrite iter_pos_succ, shr_1_m.
    + rewrite IHp, Pos2Z.inj_succ, Z.pow_succ_r by lia.
      rewrite Z.div_div by lia. f_equal. lia.
    + rewrite IHp. apply Z.div_pos; lia.
Qed.

Lemma shr_m_spec (mrs : shr_record) (e n : Z) :
  0 <= shr_m mrs ->
  shr_m (fst (shr mrs e n)) = shr_m mrs / 2 ^ Z.max 0 n /\
  snd (shr mrs e n) = e + Z.max 0 n.
Proof.
  intros H. destruct n as [| p | p]; cbn [shr fst snd].
  - rewrite Z.max_id. cbn. rewrite Z.div_1_r. lia.
  - rewrite iter_shr_m by exact H. rewrite Z.max_r by lia. lia.
  - rewrite Z.max_l by lia. cbn. rewrite Z.div_1_r. lia.
Qed.

Lemma shr_record_of_loc_m (m : Z) (l : location) : shr_m (shr_record_of_loc m l) = m.
Proof. destruct l as [| []]; reflexivity. Qed.

Lemma round_nearest_even_cases (m : Z) (l : location) :
  round_nearest_even m l = m \/ round_nearest_even m l = m + 1.
Proof.
  destruct l as [| []]; cbn; auto. destruct (Z.even m); auto.
Qed.

Lemma Zdigits2_unique (m d : Z) :
  0 < m -> 2 ^ (d - 1) <= m < 2 ^ d -> Zdigits2 m = d.
Proof.
  intros Hm H. destruct m as [| p | p]; try lia. cbn. now apply digits_unique.
Qed.

Lemma Zdigits2_bounds (m : Z) :
  0 < m -> 2 ^ (Zdigits2 m - 1) <= m < 2 ^ Zdigits2 m.
Proof.
  intros Hm. destruct m as [| p | p]; try lia. cbn. apply digits2_pos_bounds.
Qed.

Lemma fexp_normal (e : Z) : -149 <= e - 24 -> fexp 24 128 e = e - 24.
Proof. unfold fexp, emin. lia. Qed.

Lemma div_pow2_bounds (m d k : Z) :
  0 <= k -> k < d ->
  2 ^ (d - 1) <= m < 2 ^ d ->
  2 ^ (d - k - 1) <= m / 2 ^ k < 2 ^ (d - k).
Proof.
  intros Hk Hd [L U].
  assert (P : 0 < 2 ^ k) by (apply Z.pow_pos_nonneg; lia).
  split.
  - apply Z.div_le_lower_bound; [ exact P | ].
    rewrite <- Z.pow_add_r by lia. replace (k + (d - k - 1)) with (d - 1) by lia. exact L.
  - apply Z.div_lt_upper_bound; [ exact P | ].
    rewrite <- Z.pow_add_r by lia. replace (k + (d - k)) with d by lia. exact U.
Qed.

(** Rounding a mantissa of [d >= 24] bits in the normal range keeps its
    24 leading bits or adds one to them; a carry out of the 24 bits gives
    the next power of two. *)
Lemma bra_normal (s : bool) (mx ex : Z) (lx : location) (d : Z) :
  0 < mx -> Zdigits2 mx = d -> 24 <= d ->
  -149 <= ex + d - 24 -> ex + d - 24 < 104 ->
  exists m e mr,
    binary_round_aux 24 128 s mx ex lx = S754_finite s m e /\
    Zpos (digits2_pos m) = 24 /\
    (mr = mx / 2 ^ (d - 24) \/ mr = mx / 2 ^ (d - 24) + 1) /\
    ((e = ex + d - 24 /\ Zpos m = mr) \/
     (e = ex + d - 24 + 1 /\ Zpos m = 2 ^ 23 /\ mr = 2 ^ 24)).
Proof.
  intros Hm Hd H24 Hlo Hhi.
  pose proof (Zdigits2_bounds mx Hm) as B. rewrite Hd in B.
  unfold binary_round_aux, shr_fexp.
  rewrite Hd, fexp_normal by lia.
  pose proof (shr_m_spec (shr_record_of_loc mx lx) ex (d + ex - 24 - ex)) as S1.
  rewrite shr_record_of_loc_m in S1. specialize (S1 ltac:(lia)).
  destruct (shr (shr_record_of_loc mx lx) ex (d + ex - 24 - ex)) as [mrs' e'].
  cbn [fst snd] in S1. destruct S1 as [M1 E1].
  replace (Z.max 0 (d + ex - 24 - ex)) with (d - 24) in * by lia.
  set (m1 := mx / 2 ^ (d - 24)) in *.
  assert (B1 : 2 ^ 23 <= m1 < 2 ^ 24).
  { pose proof (div_pow2_bounds mx d (d - 24) ltac:(lia) ltac:(lia) B) as X.
    replace (d - (d - 24) - 1) with 23 in X by lia.
    replace (d - (d - 24)) with 24 in X by lia. exact X. }
  set (mr := round_nearest_even (shr_m mrs') (loc_of_shr_record mrs')).
  assert (R : mr = m1 \/ mr = m1 + 1).
  { unfold mr. rewrite <- M1. apply round_nearest_even_cases. }
  assert (C : mr < 2 ^ 24 \/ mr = 2 ^ 24) by lia.
  destruct C as [C | C].
  - assert (D : Zdigits2 mr = 24) by (apply Zdigits2_unique; simpl; lia).
    rewrite D, fexp_normal by lia.
    pose proof (shr_m_spec (shr_record_of_loc mr loc_Exact) e' (24 + e' - 24 - e')) as S2.
    rewrite shr_record_of_loc_m in S2. specialize (S2 ltac:(lia)).
    destruct (shr (shr_record_of_loc mr loc_Exact) e' (24 + e' - 24 - e')) as [mrs'' e''].
    cbn [fst snd] in S2. destruct S2 as [M2 E2].
    replace (Z.max 0 (24 + e' - 24 - e')) with 0 in * by lia.
    change (2 ^ 0) with 1 in M2. rewrite Z.div_1_r in M2.
    rewrite M2. destruct mr as [| p | p]; try lia.
    unfold F32.emax, F32.prec.
    destruct (Z.leb_spec e'' (128 - 24)); [| lia ].
    exists p, e'', (Zpos p). split; [ reflexivity | ].
    split; [ exact D | ]. split; [ exact R | ]. left. split; [ lia | reflexivity ].
  - assert (D : Zdigits2 mr = 25) by (apply Zdigits2_unique; rewrite C; simpl; lia).
    rewrite D, fexp_normal by lia.
    pose proof (shr_m_spec (shr_record_of_loc mr loc_Exact) e' (25 + e' - 24 - e')) as S2.
    rewrite shr_record_of_loc_m in S2. specialize (S2 ltac:(lia)).
    destruct (shr (shr_record_of_loc mr loc_Exact) e' (25 + e' - 24 - e')) as [mrs'' e''].
    cbn [fst snd] in S2. destruct S2 as [M2 E2].
    replace (Z.max 0 (25 + e' - 24 - e')) with 1 in * by lia.
    rewrite C in M2. change (2 ^ 24 / 2 ^ 1) with (2 ^ 23) in M2.
    rewrite M2. change (2 ^ 23) with (Zpos 8388608).
    destruct (Z.leb_spec e'' (128 - 24)); [| lia ].
    exists 8388608%positive, e'', mr. split; [ reflexivity | ].
    split; [ reflexivity | ]. split; [ exact R | ]. right. repeat split; lia.
Qed.

(** ** Powers of two and the value of a float *)

Lemma bpow2_add (a b : Z) : bpow2 (a + b) = (bpow2 a * bpow2 b)%R.
Proof. unfold bpow2. apply powerRZ_add. lra. Qed.

Lemma bpow2_pos (e : Z) : (0 < bpow2 e)%R.
Proof. unfold bpow2. apply powerRZ_lt. lra. Qed.

Lemma bpow2_IZR (k : Z) : 0 <= k -> bpow2 k = IZR (2 ^ k).
Proof.
  intros H. unfold bpow2. destruct k as [| p | p]; try lia.
  - reflexivity.
  - symmetry. apply (Zpower_pos_powerRZ 2 p).
Qed.

Lemma bpow2_ge_1 (k : Z) : 0 <= k -> (1 <= bpow2 k)%R.
Proof.
  intros H. rewrite bpow2_IZR by exact H. apply IZR_le.
  pose proof (Z.pow_pos_nonneg 2 k ltac:(lia) H). lia.
Qed.

Lemma bpow2_le (a b : Z) : a <= b -> (bpow2 a <= bpow2 b)%R.
Proof.
  intros H. replace b with (a + (b - a)) by lia. rewrite bpow2_add.
  pose proof (bpow2_ge_1 (b - a) ltac:(lia)). pose proof (bpow2_pos a). nra.
Qed.

Lemma bpow2_lt_inv (a b : Z) : (bpow2 a < bpow2 b)%R -> a < b.
Proof.
  intros H. destruct (Z.lt_ge_cases a b) as [C | C]; [ exact C | ].
  pose proof (bpow2_le b a C). lra.
Qed.

Lemma delta_small : (0 < delta <= 1 / 8000000)%R.
Proof.
  unfold delta. split; [ apply bpow2_pos | ].
  assert (E : (bpow2 (-23) * bpow2 23 = 1)%R) by (rewrite <- bpow2_add; reflexivity).
  rewrite (bpow2_IZR 23) in E by lia. change (2 ^ 23) with 8388608 in E.
  pose proof (bpow2_pos (-23)). nra.
Qed.

(** ** One rounding: a relative error of at most [delta] *)

(** Whatever the round and sticky bits say: when the exact value [X] lies
    between the truncated mantissa and its successor, the rounded float is
    within [delta] of [X], relatively. *)
Lemma bra_value (s : bool) (mx ex : Z) (lx : location) (d : Z) (X : R) :
  0 < mx -> Zdigits2 mx = d -> 24 <= d ->
  -149 <= ex + d - 24 -> ex + d - 24 < 104 ->
  (F2R mx ex <= X <= F2R (mx + 1) ex)%R ->
  exists m e,
    binary_round_aux 24 128 s mx ex lx = S754_finite s m e /\
    Zpos (digits2_pos m) = 24 /\
    ex + d - 24 <= e <= ex + d - 23 /\
    (X * (1 - delta) <= F2R (Zpos m) e <= X * (1 + delta))%R.
Proof.
  intros Hm Hd H24 Hlo Hhi HX.
  destruct (bra_normal s mx ex lx d Hm Hd H24 Hlo Hhi) as (m & e & mr & E & D & Hmr & He).
  exists m, e. split; [ exact E | ]. split; [ exact D | ].
  split; [ destruct He as [[-> _] | [-> _]]; lia | ].
  pose proof (Zdigits2_bounds mx Hm) as B. rewrite Hd in B.
  set (k := d - 24) in *. set (e1 := ex + d - 24) in *.
  set (m1 := mx / 2 ^ k) in *.
  assert (P : 0 < 2 ^ k) by (apply Z.pow_pos_nonneg; lia).
  assert (B1 : 2 ^ 23 <= m1 < 2 ^ 24).
  { pose proof (div_pow2_bounds mx d k ltac:(lia) ltac:(lia) B) as Y.
    replace (d - k - 1) with 23 in Y by lia. replace (d - k) with 24 in Y by lia. exact Y. }
  assert (Z1 : m1 * 2 ^ k <= mx < (m1 + 1) * 2 ^ k).
  { pose proof (Z.div_mod mx (2 ^ k) ltac:(lia)) as DM.
    pose proof (Z.mod_pos_bound mx (2 ^ k) P). fold m1 in DM. nia. }
  assert (V : F2R (Zpos m) e = F2R mr e1).
  { unfold F2R. destruct He as [[-> ->] | (-> & -> & ->)]; [ reflexivity | ].
    rewrite bpow2_add. replace (bpow2 1) with 2%R by (unfold bpow2; simpl; lra).
    change (2 ^ 23) with 8388608. change (2 ^ 24) with 16777216. lra. }
  rewrite V.
  assert (Ee : bpow2 e1 = (bpow2 ex * IZR (2 ^ k))%R).
  { unfold e1. replace (ex + d - 24) with (ex + k) by lia.
    rewrite bpow2_add, (bpow2_IZR k) by lia. reflexivity. }
  pose proof (bpow2_pos ex) as Pex. pose proof (bpow2_pos e1) as Pe1.
  assert (L1 : (F2R m1 e1 <= X)%R).
  { apply Rle_trans with (F2R mx ex); [ | apply HX ].
    unfold F2R. rewrite Ee.
    replace (IZR m1 * (bpow2 ex * IZR (2 ^ k)))%R with (IZR (m1 * 2 ^ k) * bpow2 ex)%R
      by (rewrite mult_IZR; lra).
    apply Rmult_le_compat_r; [ lra | apply IZR_le; lia ]. }
  assert (U1 : (X <= F2R (m1 + 1) e1)%R).
  { apply Rle_trans with (F2R (mx + 1) ex); [ apply HX | ].
    unfold F2R. rewrite Ee.
    replace (IZR (m1 + 1) * (bpow2 ex * IZR (2 ^ k)))%R
      with (IZR ((m1 + 1) * 2 ^ k) * bpow2 ex)%R by (rewrite mult_IZR; lra).
    apply Rmult_le_compat_r; [ lra | apply IZR_le; lia ]. }
  assert (G : (bpow2 e1 <= X * delta)%R).
  { assert (T : (IZR (2 ^ 23) * bpow2 e1 <= X)%R).
    { apply Rle_trans with (F2R m1 e1); [ | exact L1 ].
      unfold F2R. apply Rmult_le_compat_r; [ lra | apply IZR_le; lia ]. }
    assert (E23 : (delta * IZR (2 ^ 23) = 1)%R).
    { unfold delta. rewrite <- (bpow2_IZR 23), <- bpow2_add by lia. reflexivity. }
    pose proof (proj1 delta_small) as Dp. nra. }
  unfold F2R in *. rewrite plus_IZR in U1.
  destruct Hmr as [-> | ->]; rewrite ?plus_IZR; lra.
Qed.

Lemma pos_iter_xO (m p : positive) : Zpos (Pos.iter xO m p) = Zpos m * 2 ^ Zpos p.
Proof.
  induction p using Pos.peano_ind.
  - cbn [Pos.iter]. rewrite Pos2Z.inj_xO. change (2 ^ 1) with 2. lia.
  - rewrite Pos.iter_succ, Pos2Z.inj_xO, IHp, Pos2Z.inj_succ, Z.pow_succ_r by lia. lia.
Qed.

Lemma shl_align_spec (mx : positive) (ex ex' : Z) :
  (ex' < ex ->
   exists mz, shl_align mx ex ex' = (mz, ex') /\ Zpos mz = Zpos mx * 2 ^ (ex - ex')) /\
  (ex <= ex' -> shl_align mx ex ex' = (mx, ex)).
Proof.
  unfold shl_align. split; intros H.
  - destruct (ex' - ex) as [| p | p] eqn:E; try lia.
    eexists. split; [ reflexivity | ].
    rewrite pos_iter_xO. f_equal. f_equal. lia.
  - destruct (ex' - ex) as [| p | p] eqn:E; try lia; reflexivity.
Qed.

Lemma F2R_bracket (m e : Z) : (F2R m e <= F2R m e <= F2R (m + 1) e)%R.
Proof.
  unfold F2R. rewrite plus_IZR. pose proof (bpow2_pos e). split; nra.
Qed.

Lemma br_value (s : bool) (mx : positive) (ex : Z) :
  let d := Zpos (digits2_pos mx) in
  -149 <= ex + d - 24 -> ex + d - 24 < 104 ->
  exists m e,
    binary_round 24 128 s mx ex = S754_finite s m e /\
    Zpos (digits2_pos m) = 24 /\
    ex + d - 24 <= e <= ex + d - 23 /\
    (F2R (Zpos mx) ex * (1 - delta) <= F2R (Zpos m) e
       <= F2R (Zpos mx) ex * (1 + delta))%R.
Proof.
  intros d Hlo Hhi. unfold binary_round. fold d.
  rewrite fexp_normal by lia.
  destruct (shl_align_spec mx ex (d + ex - 24)) as [S1 S2].
  destruct (Z.lt_ge_cases d 24) as [C | C].
  - destruct (S1 ltac:(lia)) as (mz & -> & Hz).
    assert (Dz : Zdigits2 (Zpos mz) = 24).
    { apply Zdigits2_unique; [ lia | ]. rewrite Hz.
      pose proof (digits2_pos_bounds mx) as B. fold d in B.
      replace (ex - (d + ex - 24)) with (24 - d) by lia.
      assert (P : 0 < 2 ^ (24 - d)) by (apply Z.pow_pos_nonneg; lia).
      replace (2 ^ (24 - 1)) with (2 ^ (d - 1) * 2 ^ (24 - d))
        by (rewrite <- Z.pow_add_r by lia; f_equal; lia).
      replace (2 ^ 24) with (2 ^ d * 2 ^ (24 - d))
        by (rewrite <- Z.pow_add_r by lia; f_equal; lia).
      nia. }
    assert (V : F2R (Zpos mz) (d + ex - 24) = F2R (Zpos mx) ex).
    { unfold F2R. rewrite Hz, mult_IZR.
      rewrite <- (bpow2_IZR (ex - (d + ex - 24))) by lia.
      rewrite Rmult_assoc, <- bpow2_add. f_equal. f_equal. lia. }
    destruct (bra_value s (Zpos mz) (d + ex - 24) loc_Exact 24 (F2R (Zpos mx) ex)
                ltac:(lia) Dz ltac:(lia) ltac:(lia) ltac:(lia)) as (m & e & E & D & R & A).
    { rewrite <- V. apply F2R_bracket. }
    exists m, e. repeat split; try assumption; try lia; apply A.
  - rewrite (S2 ltac:(lia)).
    destruct (bra_value s (Zpos mx) ex loc_Exact d (F2R (Zpos mx) ex)
                ltac:(lia) eq_refl C Hlo Hhi (F2R_bracket _ _)) as (m & e & E & D & R & A).
    exists m, e. repeat split; try assumption; try lia; apply A.
Qed.

(** ** The conversions and the three operations *)

(** [(float)n] for [1 <= n < 2^32]. *)
Lemma of_Z_value (n : Z) :
  1 <= n < 2 ^ 32 ->
  exists m e,
    F32.of_Z n = S754_finite false m e /\
    Zpos (digits2_pos m) = 24 /\ -23 <= e <= 9 /\
    (IZR n * (1 - delta) <= F2R (Zpos m) e <= IZR n * (1 + delta))%R.
Proof.
  intros H. destruct n as [| p | p]; try lia.
  unfold F32.of_Z, binary_normalize, F32.prec, F32.emax.
  pose proof (digits2_pos_bounds p) as B.
  assert (D1 : 1 <= Zpos (digits2_pos p)) by lia.
  assert (D2 : Zpos (digits2_pos p) <= 32).
  { destruct (Z.le_gt_cases (Zpos (digits2_pos p)) 32) as [C | C]; [ exact C | ].
    assert (2 ^ 32 <= 2 ^ (Zpos (digits2_pos p) - 1)) by (apply Z.pow_le_mono_r; lia).
    lia. }
  destruct (br_value false p 0 ltac:(lia) ltac:(lia)) as (m & e & E & D & R & A).
  assert (V : F2R (Zpos p) 0 = IZR (Zpos p)) by (unfold F2R, bpow2; simpl; lra).
  rewrite V in A.
  exists m, e. repeat split; try assumption; try lia; apply A.
Qed.

Lemma digits24 (m : positive) :
  Zpos (digits2_pos m) = 24 -> 2 ^ 23 <= Zpos m < 2 ^ 24.
Proof. intros H. pose proof (digits2_pos_bounds m) as B. rewrite H in B. exact B. Qed.

Lemma F2R_pos (m : positive) (e : Z) : (0 < F2R (Zpos m) e)%R.
Proof.
  unfold F2R. apply Rmult_lt_0_compat; [ apply IZR_lt; lia | apply bpow2_pos ].
Qed.

(** Division of two normal floats. *)
Lemma div_value (m1 m2 : positive) (e1 e2 : Z) :
  Zpos (digits2_pos m1) = 24 -> Zpos (digits2_pos m2) = 24 ->
  -100 <= e1 - e2 <= 100 ->
  exists m e,
    SFdiv 24 128 (S754_finite false m1 e1) (S754_finite false m2 e2)
      = S754_finite false m e /\
    Zpos (digits2_pos m) = 24 /\
    e1 - e2 - 24 <= e <= e1 - e2 - 22 /\
    (F2R (Zpos m1) e1 / F2R (Zpos m2) e2 * (1 - delta) <= F2R (Zpos m) e
       <= F2R (Zpos m1) e1 / F2R (Zpos m2) e2 * (1 + delta))%R.
Proof.
  intros D1 D2 He.
  pose proof (digits24 m1 D1) as B1. pose proof (digits24 m2 D2) as B2.
  change (2 ^ 23) with 8388608 in *. change (2 ^ 24) with 16777216 in *.
  unfold SFdiv, SFdiv_core_binary. cbn [Zdigits2]. rewrite D1, D2.
  replace (24 + e1 - (24 + e2)) with (e1 - e2) by lia.
  rewrite fexp_normal by lia.
  rewrite Z.min_l by lia.
  replace (e1 - e2 - (e1 - e2 - 24)) with 24 by lia.
  rewrite Z.shiftl_mul_pow2 by lia. change (2 ^ 24) with 16777216.
  pose proof (Z_div_mod (Zpos m1 * 16777216) (Zpos m2) ltac:(lia)) as DM.
  destruct (Z.div_eucl (Zpos m1 * 16777216) (Zpos m2)) as [q r].
  destruct DM as [DM Hr].
  assert (Bq : 8388608 <= q < 33554432) by nia.
  pose proof (Zdigits2_bounds q ltac:(lia)) as Bd.
  set (dq := Zdigits2 q) in *.
  assert (Hdq : 24 <= dq <= 25).
  { split.
    - destruct (Z.le_gt_cases 24 dq) as [C | C]; [ exact C | ].
      assert (2 ^ dq <= 2 ^ 23) by (apply Z.pow_le_mono_r; lia).
      change (2 ^ 23) with 8388608 in *. lia.
    - destruct (Z.le_gt_cases dq 25) as [C | C]; [ exact C | ].
      assert (2 ^ 25 <= 2 ^ (dq - 1)) by (apply Z.pow_le_mono_r; lia).
      change (2 ^ 25) with 33554432 in *. lia. }
  set (Q := (F2R (Zpos m1) e1 / F2R (Zpos m2) e2)%R).
  assert (HQ : (F2R q (e1 - e2 - 24) <= Q <= F2R (q + 1) (e1 - e2 - 24))%R).
  { unfold Q, F2R.
    pose proof (bpow2_pos e2) as P2. pose proof (bpow2_pos (e1 - e2 - 24)) as P'.
    assert (A2 : (0 < IZR (Zpos m2))%R) by (apply IZR_lt; lia).
    assert (Eb : bpow2 e1 = (bpow2 (e1 - e2 - 24) * 16777216 * bpow2 e2)%R).
    { replace e1 with ((e1 - e2 - 24) + 24 + e2) at 1 by lia.
      rewrite !bpow2_add, (bpow2_IZR 24) by lia. reflexivity. }
    rewrite Eb.
    assert (N : (IZR (Zpos m1) * 16777216 = IZR (Zpos m2) * IZR q + IZR r)%R).
    { rewrite <- (mult_IZR (Zpos m2) q), <- plus_IZR, <- DM, mult_IZR. reflexivity. }
    assert (R0 : (0 <= IZR r < IZR (Zpos m2))%R).
    { split; [ apply IZR_le | apply IZR_lt ]; lia. }
    replace (IZR (Zpos m1) * (bpow2 (e1 - e2 - 24) * 16777216 * bpow2 e2)
             / (IZR (Zpos m2) * bpow2 e2))%R
      with ((IZR q + IZR r / IZR (Zpos m2)) * bpow2 (e1 - e2 - 24))%R.
    2: { assert (M : IZR (Zpos m1) = ((IZR (Zpos m2) * IZR q + IZR r) / 16777216)%R)
           by lra.
         rewrite M. field. split; lra. }
    rewrite plus_IZR.
    assert (Fr : (0 <= IZR r / IZR (Zpos m2) <= 1)%R).
    { split.
      - apply Rmult_le_pos; [ lra | left; apply Rinv_0_lt_compat; lra ].
      - apply Rmult_le_reg_r with (IZR (Zpos m2)); [ lra | ].
        unfold Rdiv. rewrite Rmult_assoc, Rinv_l by lra. lra. }
    split; nra. }
  destruct (bra_value (xorb false false) q (e1 - e2 - 24) (new_location (Zpos m2) r) dq Q
              ltac:(lia) eq_refl ltac:(lia) ltac:(lia) ltac:(lia) HQ)
    as (m & e & E & D & R & A).
  exists m, e. repeat split; try assumption; try lia; apply A.
Qed.

(** Multiplication of two normal floats. *)
Lemma mul_value (m1 m2 : positive) (e1 e2 : Z) :
  Zpos (digits2_pos m1) = 24 -> Zpos (digits2_pos m2) = 24 ->
  -100 <= e1 + e2 <= 50 ->
  exists m e,
    SFmul 24 128 (S754_finite false m1 e1) (S754_finite false m2 e2)
      = S754_finite false m e /\
    Zpos (digits2_pos m) = 24 /\
    e1 + e2 + 23 <= e <= e1 + e2 + 25 /\
    (F2R (Zpos m1) e1 * F2R (Zpos m2) e2 * (1 - delta) <= F2R (Zpos m) e
       <= F2R (Zpos m1) e1 * F2R (Zpos m2) e2 * (1 + delta))%R.
Proof.
  intros D1 D2 He.
  pose proof (digits24 m1 D1) as B1. pose proof (digits24 m2 D2) as B2.
  change (2 ^ 23) with 8388608 in *. change (2 ^ 24) with 16777216 in *.
  unfold SFmul.
  assert (Bp : 2 ^ 46 <= Zpos (m1 * m2) < 2 ^ 48).
  { rewrite Pos2Z.inj_mul. change (2 ^ 46) with (8388608 * 8388608).
    change (2 ^ 48) with (16777216 * 16777216). nia. }
  pose proof (Zdigits2_bounds (Zpos (m1 * m2)) ltac:(lia)) as Bd.
  set (dp := Zdigits2 (Zpos (m1 * m2))) in *.
  assert (Hdp : 47 <= dp <= 48).
  { split.
    - destruct (Z.le_gt_cases 47 dp) as [C | C]; [ exact C | ].
      assert (2 ^ dp <= 2 ^ 46) by (apply Z.pow_le_mono_r; lia). lia.
    - destruct (Z.le_gt_cases dp 48) as [C | C]; [ exact C | ].
      assert (2 ^ 48 <= 2 ^ (dp - 1)) by (apply Z.pow_le_mono_r; lia). lia. }
  assert (V : F2R (Zpos (m1 * m2)) (e1 + e2) = (F2R (Zpos m1) e1 * F2R (Zpos m2) e2)%R).
  { unfold F2R. rewrite Pos2Z.inj_mul, mult_IZR, bpow2_add. ring. }
  destruct (bra_value (xorb false false) (Zpos (m1 * m2)) (e1 + e2) loc_Exact dp
              (F2R (Zpos m1) e1 * F2R (Zpos m2) e2)%R
              ltac:(lia) eq_refl ltac:(lia) ltac:(lia) ltac:(lia))
    as (m & e & E & D & R & A).
  { rewrite <- V. apply F2R_bracket. }
  exists m, e. repeat split; try assumption; try lia; apply A.
Qed.

(** Subtraction [a - b] of two positive normal floats, by the sign of the
    exact difference. *)
Lemma sub_value (ma mb : positive) (ea eb : Z) :
  Zpos (digits2_pos ma) = 24 -> Zpos (digits2_pos mb) = 24 ->
  eb <= ea -> -120 <= eb -> ea <= 50 ->
  let A := F2R (Zpos ma) ea in
  let B := F2R (Zpos mb) eb in
  let r := SFsub 24 128 (S754_finite false ma ea) (S754_finite false mb eb) in
  ((B < A)%R ->
   exists m e, r = S754_finite false m e /\
     ((A - B) * (1 - delta) <= F2R (Zpos m) e <= (A - B) * (1 + delta))%R) /\
  (A = B -> r = S754_zero false) /\
  ((A < B)%R ->
   exists m e, r = S754_finite true m e /\
     ((B - A) * (1 - delta) <= F2R (Zpos m) e <= (B - A) * (1 + delta))%R).
Proof.
  intros Da Db Hab Hlo Hhi A B r.
  pose proof (digits24 ma Da) as Ba. pose proof (digits24 mb Db) as Bb.
  change (2 ^ 23) with 8388608 in *. change (2 ^ 24) with 16777216 in *.
  assert (P : 0 < 2 ^ (ea - eb)) by (apply Z.pow_pos_nonneg; lia).
  assert (Sa : Zpos (fst (shl_align ma ea (Z.min ea eb))) = Zpos ma * 2 ^ (ea - eb)).
  { rewrite Z.min_r by lia.
    destruct (shl_align_spec ma ea eb) as [S1 S2].
    destruct (Z.lt_ge_cases eb ea) as [C | C].
    - destruct (S1 C) as (mz & -> & Hz). exact Hz.
    - rewrite (S2 C). cbn [fst]. replace (ea - eb) with 0 by lia. cbn. lia. }
  assert (Sb : Zpos (fst (shl_align mb eb (Z.min ea eb))) = Zpos mb).
  { rewrite Z.min_r by lia.
    destruct (shl_align_spec mb eb eb) as [_ S2]. now rewrite (S2 ltac:(lia)). }
  assert (Er : r = binary_normalize 24 128 (Zpos ma * 2 ^ (ea - eb) - Zpos mb) eb false).
  { unfold r, SFsub. cbn [cond_Zopp]. rewrite Sa, Sb, Z.min_r by lia. reflexivity. }
  set (D := Zpos ma * 2 ^ (ea - eb) - Zpos mb) in *.
  assert (VD : (IZR D * bpow2 eb = A - B)%R).
  { unfold D, A, B, F2R. rewrite minus_IZR, mult_IZR, <- (bpow2_IZR (ea - eb)) by lia.
    replace (bpow2 ea) with (bpow2 (ea - eb) * bpow2 eb)%R
      by (rewrite <- bpow2_add; f_equal; lia).
    ring. }
  pose proof (bpow2_pos eb) as Pb.
  assert (UD : D < 2 ^ (24 + (ea - eb))).
  { unfold D. rewrite Z.pow_add_r by lia. change (2 ^ 24) with 16777216. nia. }
  assert (Dig : forall p : positive, Zpos p <= Z.abs D ->
                1 <= Zpos (digits2_pos p) /\
                (Zpos p < 2 ^ (24 + (ea - eb)) -> Zpos (digits2_pos p) <= 24 + (ea - eb))).
  { intros p _. split; [ lia | ]. intros U.
    pose proof (digits2_pos_bounds p) as Bp.
    destruct (Z.le_gt_cases (Zpos (digits2_pos p)) (24 + (ea - eb))) as [C | C];
      [ exact C | ].
    assert (2 ^ (24 + (ea - eb)) <= 2 ^ (Zpos (digits2_pos p) - 1))
      by (apply Z.pow_le_mono_r; lia).
    lia. }
  split; [| split].
  - intros H.
    assert (HD : (0 < IZR D)%R) by nra.
    apply lt_IZR in HD. destruct D as [| p | p] eqn:ED; try lia.
    destruct (Dig p ltac:(lia)) as [G1 G2]. specialize (G2 ltac:(lia)).
    rewrite Er. cbn [binary_normalize].
    destruct (br_value false p eb ltac:(lia) ltac:(lia)) as (m & e & E & _ & _ & V).
    exists m, e. split; [ exact E | ].
    assert (VP : (F2R (Zpos p) eb = A - B)%R) by (unfold F2R; exact VD).
    rewrite VP in V. exact V.
  - intros H.
    assert (HD : IZR D = 0%R) by nra.
    apply eq_IZR in HD. rewrite Er, HD. reflexivity.
  - intros H.
    assert (HD : (IZR D < 0)%R) by nra.
    apply lt_IZR in HD. destruct D as [| p | p] eqn:ED; try lia.
    assert (Up : Zpos p < 2 ^ 24).
    { assert (Zneg p = Zpos ma * 2 ^ (ea - eb) - Zpos mb) by (symmetry; exact ED).
      change (2 ^ 24) with 16777216. nia. }
    pose proof (digits2_pos_bounds p) as Bp.
    assert (G2 : Zpos (digits2_pos p) <= 24).
    { destruct (Z.le_gt_cases (Zpos (digits2_pos p)) 24) as [C | C]; [ exact C | ].
      assert (2 ^ 24 <= 2 ^ (Zpos (digits2_pos p) - 1)) by (apply Z.pow_le_mono_r; lia).
      lia. }
    rewrite Er. cbn [binary_normalize].
    destruct (br_value true p eb ltac:(lia) ltac:(lia)) as (m & e & E & _ & _ & V).
    exists m, e. split; [ exact E | ].
    assert (VN : (F2R (Zpos p) eb = B - A)%R).
    { unfold F2R. change (Zpos p) with (- Zneg p). rewrite opp_IZR. lra. }
    rewrite VN in V. exact V.
Qed.

(** The conversion to [uint32_t] truncates. *)
Lemma to_u32_nonneg (m : positive) (e : Z) :
  (F2R (Zpos m) e < 4294967296)%R ->
  exists u, F32.to_u32 (S754_finite false m e) = Some u /\ 0 <= u /\
            (IZR u <= F2R (Zpos m) e < IZR u + 1)%R.
Proof.
  intros H. unfold F32.to_u32.
  destruct (Z.leb_spec 0 e) as [C | C].
  - rewrite Z.shiftl_mul_pow2 by lia.
    assert (V : F2R (Zpos m) e = IZR (Zpos m * 2 ^ e)).
    { unfold F2R. rewrite mult_IZR, <- bpow2_IZR by lia. reflexivity. }
    rewrite V in *. apply lt_IZR in H. change (2 ^ 32) with 4294967296.
    destruct (Z.ltb_spec (Zpos m * 2 ^ e) 4294967296); [| lia ].
    eexists. split; [ reflexivity | ].
    split; [ pose proof (Z.pow_pos_nonneg 2 e ltac:(lia) C); nia | lra ].
  - rewrite Z.shiftr_div_pow2 by lia.
    set (k := - e). assert (P : 0 < 2 ^ k) by (apply Z.pow_pos_nonneg; lia).
    set (t := Zpos m / 2 ^ k).
    assert (Zt : t * 2 ^ k <= Zpos m < (t + 1) * 2 ^ k).
    { pose proof (Z.div_mod (Zpos m) (2 ^ k) ltac:(lia)) as DM.
      pose proof (Z.mod_pos_bound (Zpos m) (2 ^ k) P). fold t in DM. nia. }
    assert (T0 : 0 <= t) by (apply Z.div_pos; lia).
    assert (Ek : (bpow2 e * IZR (2 ^ k) = 1)%R).
    { rewrite <- bpow2_IZR, <- bpow2_add by lia. replace (e + k) with 0 by lia. reflexivity. }
    assert (Pk : (0 < IZR (2 ^ k))%R) by (apply IZR_lt; lia).
    pose proof (bpow2_pos e) as Pe.
    assert (L : (IZR t <= F2R (Zpos m) e)%R).
    { unfold F2R.
      assert (X : (IZR t * IZR (2 ^ k) <= IZR (Zpos m))%R)
        by (rewrite <- mult_IZR; apply IZR_le; lia).
      replace (IZR t) with (IZR t * IZR (2 ^ k) * bpow2 e)%R
        by (rewrite Rmult_assoc, (Rmult_comm (IZR (2 ^ k))), Ek; ring).
      apply Rmult_le_compat_r; lra. }
    assert (U : (F2R (Zpos m) e < IZR t + 1)%R).
    { unfold F2R.
      assert (X : (IZR (Zpos m) < (IZR t + 1) * IZR (2 ^ k))%R)
        by (rewrite <- (plus_IZR t 1), <- mult_IZR; apply IZR_lt; lia).
      replace (IZR t + 1)%R with ((IZR t + 1) * IZR (2 ^ k) * bpow2 e)%R
        by (rewrite Rmult_assoc, (Rmult_comm (IZR (2 ^ k))), Ek; ring).
      apply Rmult_lt_compat_r; lra. }
    assert (t < 4294967296) by (apply lt_IZR; lra).
    change (2 ^ 32) with 4294967296.
    destruct (Z.ltb_spec t 4294967296); [| lia ].
    exists t. repeat split; try assumption; lra.
Qed.

Lemma to_u32_small_neg (m : positive) (e : Z) :
  (F2R (Zpos m) e < 1)%R -> F32.to_u32 (S754_finite true m e) = Some 0.
Proof.
  intros H. unfold F32.to_u32.
  destruct (Z.leb_spec 0 e) as [C | C].
  - exfalso. pose proof (bpow2_ge_1 e C).
    assert (1 <= IZR (Zpos m))%R by (apply IZR_le; lia).
    unfold F2R in H. nra.
  - rewrite Z.shiftr_div_pow2 by lia.
    set (k := - e). assert (P : 0 < 2 ^ k) by (apply Z.pow_pos_nonneg; lia).
    assert (Ek : (bpow2 e * IZR (2 ^ k) = 1)%R).
    { rewrite <- bpow2_IZR, <- bpow2_add by lia. replace (e + k) with 0 by lia. reflexivity. }
    assert (Pk : (0 < IZR (2 ^ k))%R) by (apply IZR_lt; lia).
    pose proof (bpow2_pos e) as Pe.
    assert (Zpos m < 2 ^ k).
    { apply lt_IZR. unfold F2R in H.
      replace (IZR (2 ^ k)) with (1 * IZR (2 ^ k))%R by ring.
      replace (IZR (Zpos m)) with (IZR (Zpos m) * bpow2 e * IZR (2 ^ k))%R
        by (rewrite Rmult_assoc, Ek; ring).
      apply Rmult_lt_compat_r; lra. }
    rewrite Z.div_small by lia. reflexivity.
Qed.

(** ** The usage expression *)

Lemma widen (x y : R) :
  (0 <= x)%R ->
  (x * (1 - delta) <= y <= x * (1 + delta))%R ->
  (x * (1 - kappa) <= y <= x * (1 + kappa))%R.
Proof.
  intros Hx [L U]. pose proof delta_small as [D0 D1]. fold kappa in D1.
  assert (x * delta <= x * kappa)%R by (apply Rmult_le_compat_l; assumption).
  lra.
Qed.

Lemma hundred_value : F2R 13107200 (-17) = 100%R.
Proof.
  unfold F2R.
  assert (E : (bpow2 (-17) * IZR (2 ^ 17) = 1)%R).
  { rewrite <- bpow2_IZR, <- bpow2_add by lia. reflexivity. }
  change (2 ^ 17) with 131072 in E. lra.
Qed.

Lemma of_Z_100 : F32.of_Z 100 = S754_finite false 13107200 (-17).
Proof. reflexivity. Qed.

(** The stored value against the exact percentage, in the reals. *)
Lemma ram_usage_real (f t : Z) :
  0 <= f <= t -> 0 < t < 2 ^ 32 ->
  exists u,
    Linux.ram_usage f t = Some u /\ 0 <= u /\
    (100 - 100 * (IZR f / IZR t) - 1 - 1 / 1000 < IZR u
       <= 100 - 100 * (IZR f / IZR t) + 1 / 1000)%R.
Proof.
  intros Hf Ht. unfold Linux.ram_usage, F32.prec, F32.emax. rewrite of_Z_100.
  assert (T1 : (1 <= IZR t)%R) by (apply IZR_le; lia).
  destruct (of_Z_value t ltac:(lia)) as (my & ey & Ey & Dy & Ry & Vy).
  rewrite Ey.
  destruct (Z.eq_dec f 0) as [-> | Hf0].
  - exists 100. split; [ reflexivity | ]. split; [ lia | ].
    unfold Rdiv. rewrite Rmult_0_l. lra.
  - destruct (of_Z_value f ltac:(lia)) as (mx & ex & Ex & Dx & Rx & Vx).
    rewrite Ex.
    assert (F1 : (1 <= IZR f)%R) by (apply IZR_le; lia).
    assert (FT : (IZR f <= IZR t)%R) by (apply IZR_le; lia).
    destruct (div_value mx my ex ey Dx Dy ltac:(lia)) as (mq & eq & Eq & Dq & Rq & Vq).
    rewrite Eq.
    destruct (mul_value mq 13107200 eq (-17) Dq eq_refl ltac:(lia))
      as (mp & ep & Ep & Dp & Rp & Vp).
    rewrite Ep. rewrite hundred_value in Vp.
    set (X := F2R (Zpos mx) ex) in *. set (Y := F2R (Zpos my) ey) in *.
    set (Q := F2R (Zpos mq) eq) in *. set (P := F2R (Zpos mp) ep) in *.
    set (rho := (IZR f / IZR t)%R).
    assert (Hrho : (rho * IZR t = IZR f)%R) by (unfold rho; field; lra).
    assert (Rho : (0 < rho <= 1)%R).
    { split.
      - unfold rho. apply Rdiv_lt_0_compat; lra.
      - apply Rmult_le_reg_r with (IZR t); [ lra | ]. rewrite Hrho. lra. }
    assert (PX : (0 < X)%R) by apply F2R_pos.
    assert (PY : (0 < Y)%R) by apply F2R_pos.
    assert (PQ : (0 < Q)%R) by apply F2R_pos.
    set (W := (X / Y)%R) in *.
    assert (HW : (W * Y = X)%R) by (unfold W; field; lra).
    assert (PW : (0 < W)%R) by (unfold W; apply Rdiv_lt_0_compat; lra).
    apply widen in Vx; [ | lra ]. apply widen in Vy; [ | lra ].
    apply widen in Vq; [ | lra ]. apply widen in Vp; [ | nra ].
    unfold kappa in *.
    assert (W1 : (W * (1 - 1 / 8000000) <= rho * (1 + 1 / 8000000))%R).
    { apply Rmult_le_reg_r with (IZR t); [ lra | ].
      apply Rle_trans with X.
      - rewrite <- HW. rewrite Rmult_assoc.
        apply Rmult_le_compat_l; [ lra | ]. lra.
      - replace (rho * (1 + 1 / 8000000) * IZR t)%R
          with (rho * IZR t * (1 + 1 / 8000000))%R by ring.
        rewrite Hrho. lra. }
    assert (W2 : (rho * (1 - 1 / 8000000) <= W * (1 + 1 / 8000000))%R).
    { apply Rmult_le_reg_r with (IZR t); [ lra | ].
      apply Rle_trans with X.
      - replace (rho * (1 - 1 / 8000000) * IZR t)%R
          with (rho * IZR t * (1 - 1 / 8000000))%R by ring.
        rewrite Hrho. lra.
      - rewrite <- HW. rewrite Rmult_assoc.
        apply Rmult_le_compat_l; [ lra | ]. lra. }
    assert (BP : (100 * rho - 1 / 10000 <= P <= 100 * rho + 1 / 10000)%R) by lra.
    assert (Hep : ep <= -17).
    { assert (L : (bpow2 (23 + ep) <= P)%R).
      { unfold P, F2R. rewrite bpow2_add, (bpow2_IZR 23) by lia.
        apply Rmult_le_compat_r; [ left; apply bpow2_pos | ].
        apply IZR_le. apply (digits24 mp Dp). }
      assert (U : (P < bpow2 7)%R).
      { rewrite (bpow2_IZR 7) by lia. change (2 ^ 7) with 128. lra. }
      assert (23 + ep < 7) by (apply bpow2_lt_inv; lra). lia. }
    destruct (sub_value 13107200 mp (-17) ep eq_refl Dp Hep ltac:(lia) ltac:(lia))
      as (SP & SZ & SN).
    rewrite hundred_value in SP, SZ, SN. fold P in SP, SZ, SN.
    destruct (Rtotal_order P 100) as [C | [C | C]].
    + destruct (SP C) as (m & e & -> & V).
      apply widen in V; [ | lra ]. unfold kappa in V.
      destruct (to_u32_nonneg m e ltac:(lra)) as (u & -> & U0 & UV).
      exists u. split; [ reflexivity | ]. split; [ exact U0 | ]. fold rho. lra.
    + rewrite (SZ (eq_sym C)). exists 0. split; [ reflexivity | ].
      split; [ lia | ]. fold rho. lra.
    + destruct (SN C) as (m & e & -> & V).
      apply widen in V; [ | lra ]. unfold kappa in V.
      rewrite (to_u32_small_neg m e ltac:(lra)).
      exists 0. split; [ reflexivity | ]. split; [ lia | ]. fold rho. lra.
Qed.

(** The same with integers only: the two bounds multiplied by [1000 * t],
    and the distance to the exact percentage rounded down. *)
Lemma ram_usage_spec (f t : Z) :
  0 <= f <= t -> 0 < t < 2 ^ 32 ->
  exists u,
    Linux.ram_usage f t = Some u /\ 0 <= u <= 100 /\
    100000 * (t - f) - 1001 * t < 1000 * (u * t) <= 100000 * (t - f) + t /\
    Z.abs (u - 100 * (t - f) / t) <= 1.
Proof.
  intros Hf Ht. destruct (ram_usage_real f t Hf Ht) as (u & E & U0 & L & U).
  exists u. split; [ exact E | ].
  assert (T1 : (1 <= IZR t)%R) by (apply IZR_le; lia).
  set (rho := (IZR f / IZR t)%R) in *.
  assert (Hrho : (rho * IZR t = IZR f)%R) by (unfold rho; field; lra).
  assert (F0 : (0 <= IZR f)%R) by (apply IZR_le; lia).
  assert (A : 100000 * (t - f) - 1001 * t < 1000 * (u * t) <= 100000 * (t - f) + t).
  { split.
    - apply lt_IZR. rewrite !minus_IZR, !mult_IZR, !minus_IZR.
      assert ((100 - 100 * rho - 1 - 1 / 1000) * IZR t < IZR u * IZR t)%R
        by (apply Rmult_lt_compat_r; lra).
      replace ((100 - 100 * rho - 1 - 1 / 1000) * IZR t)%R
        with (100 * IZR t - 100 * (rho * IZR t) - IZR t - IZR t / 1000)%R in H by field.
      rewrite Hrho in H. lra.
    - apply le_IZR. rewrite !plus_IZR, !mult_IZR, !minus_IZR.
      assert (IZR u * IZR t <= (100 - 100 * rho + 1 / 1000) * IZR t)%R
        by (apply Rmult_le_compat_r; lra).
      replace ((100 - 100 * rho + 1 / 1000) * IZR t)%R
        with (100 * IZR t - 100 * (rho * IZR t) + IZR t / 1000)%R in H by field.
      rewrite Hrho in H. lra. }
  split; [ | split; [ exact A | ] ].
  - split; [ exact U0 | ]. nia.
  - pose proof (Z.div_mod (100 * (t - f)) t ltac:(lia)) as DM.
    pose proof (Z.mod_pos_bound (100 * (t - f)) t ltac:(lia)) as MB.
    set (e0 := 100 * (t - f) / t) in *. nia.
Qed.

(** ** The stored percentage *)

(** C7.  On the Unix-like variant, the usage expression being evaluated in
    single precision: a call that returned 0 has stored the value of
    [100 - (RamFree / (float)RamSize) * 100] for the two sizes it stored,
    and whenever the stored total [t] is positive and the stored free
    amount [f] is at most [t], the stored usage [u] lies in [0, 100] and
    satisfies [E - 1 - 1/1000 < u <= E + 1/1000] for the exact percentage
    [E = 100 * (1 - f / t)]; being an integer, it is at most 1 away from
    [E] rounded down.  Such calls have a result: when the memory query
    succeeds, the file opens and the scan has a value, the conversion of
    the difference to [uint32_t] is defined for all such [f] and [t]. *)
Theorem C7_ram_usage_percent :
  forall (hw : Z -> cpu_regs) (h : Linux.host) (s : corinfo),
    wf_corinfo s ->
    (forall o : outcome,
       Linux.corinfo_GetInfo hw Linux.ram_usage h (Some s) = Some o ->
       status o = 0 ->
       exists snap,
         snapshot o = Some snap /\
         Linux.ram_usage (RamFree snap) (RamSize snap) = Some (RamUsage snap) /\
         (0 < RamSize snap -> RamFree snap <= RamSize snap ->
          0 <= RamUsage snap <= 100 /\
          near_percentage (RamUsage snap) (RamFree snap) (RamSize snap) /\
          Z.abs (RamUsage snap - percentage_floor (RamFree snap) (RamSize snap)) <= 1)) /\
    (forall (sys : Linux.sysinfo_t) (content : string) (MHz : Z),
       Linux.sysinfo h = Some sys ->
       Linux.proc_cpuinfo h = Some content ->
       Linux.scan_result (lines_of content) (Linux.stack_MHz h) = Some MHz ->
       0 < to_u32 (Linux.totalram sys / 1024) ->
       to_u32 (Linux.freeram sys / 1024) <= to_u32 (Linux.totalram sys / 1024) ->
       exists o,
         Linux.corinfo_GetInfo hw Linux.ram_usage h (Some s) = Some o /\ status o = 0).
Proof.
  intros hw h s Hwf. rewrite (linux_GetInfo_run hw Linux.ram_usage h s Hwf).
  unfold Linux.summary. split.
  - intros o.
    destruct (Linux.sysinfo h) as [sys |].
    2: { intros E. apply some_inj in E. subst o. cbn [status]. discriminate. }
    cbv zeta. destruct (Linux.proc_cpuinfo h) as [content |].
    2: { intros E. apply some_inj in E. subst o. cbn [status]. discriminate. }
    destruct (Linux.scan_result _ _) as [MHz |]; [| discriminate].
    destruct (Linux.ram_usage _ _) as [usage |] eqn:Hu; [| discriminate].
    intros E _. apply some_inj in E. subst o. cbn [snapshot].
    eexists. split; [ reflexivity | ]. cbn [RamSize RamFree RamUsage].
    split; [ exact Hu | ]. intros Ht Hf.
    pose proof (to_u32_is_u32 (Linux.totalram sys / 1024)) as Rt.
    pose proof (to_u32_is_u32 (Linux.freeram sys / 1024)) as Rf.
    unfold is_u32 in Rt, Rf.
    destruct (ram_usage_spec _ _ (conj (proj1 Rf) Hf) (conj Ht (proj2 Rt)))
      as (u & Eu & R & N & A).
    rewrite Hu in Eu. apply some_inj in Eu. subst u.
    unfold near_percentage, percentage_floor. repeat split; solve [ apply R | apply N | exact A ].
  - intros sys content MHz -> -> Hscan Ht Hf. cbv zeta. rewrite Hscan.
    pose proof (to_u32_is_u32 (Linux.totalram sys / 1024)) as Rt.
    pose proof (to_u32_is_u32 (Linux.freeram sys / 1024)) as Rf.
    unfold is_u32 in Rt, Rf.
    destruct (ram_usage_spec _ _ (conj (proj1 Rf) Hf) (conj Ht (proj2 Rt)))
      as (u & -> & _).
    eexists. split; reflexivity.
Qed.

Lemma C7_ram_usage_percent_witness :
  exists o snap,
    Linux.corinfo_GetInfo Sample.hw Linux.ram_usage
      (Sample.linux (Some Sample.cpuinfo) true) (Some Sample.stale) = Some o /\
    status o = 0 /\
    snapshot o = Some snap /\
    RamSize snap = 7812500 /\ RamFree snap = 1953125 /\ RamUsage snap = 75 /\
    near_percentage (RamUsage snap) (RamFree snap) (RamSize snap) /\
    Z.abs (RamUsage snap - percentage_floor (RamFree snap) (RamSize snap)) <= 1.
Proof.
  destruct (C7_ram_usage_percent Sample.hw (Sample.linux (Some Sample.cpuinfo) true)
              Sample.stale (conj eq_refl eq_refl)) as [P1 P2].
  assert (Hscan : Linux.scan_result (lines_of Sample.cpuinfo)
                    (Linux.stack_MHz (Sample.linux (Some Sample.cpuinfo) true))
                  = Some 2400) by (vm_compute; reflexivity).
  destruct (P2 {| Linux.totalram := 8000000000; Linux.freeram := 2000000000 |}
              Sample.cpuinfo 2400 eq_refl eq_refl Hscan
              ltac:(vm_compute; reflexivity) ltac:(vm_compute; discriminate))
    as (o & E & S0).
  destruct (P1 o E S0) as (snap & Hs & Hu & Hb).
  exists o, snap. split; [ exact E | ]. split; [ exact S0 | ]. split; [ exact Hs | ].
  vm_compute in E. apply some_inj in E. subst o.
  cbn [snapshot] in Hs. apply some_inj in Hs. subst snap.
  cbn [RamSize RamFree RamUsage] in *.
  split; [ reflexivity | ]. split; [ reflexivity | ]. split; [ reflexivity | ].
  exact (proj2 (Hb ltac:(lia) ltac:(lia))).
Defined.

(** The stored value can be one below the exact percentage even when that
    is an integer: 6000000 free out of 10000000 is 40 percent used, and
    39 is stored, the quotient 0.6 being rounded up to the next
    [float]. *)
Example usage_one_below_the_exact_percentage :
  Linux.ram_usage 6000000 10000000 = Some 39 /\
  100 * (10000000 - 6000000) = 40 * 10000000.
Proof. split; vm_compute; reflexivity. Qed.
